(** * DeliberateMouseDriver: element classification and report interpretation

    A shallow embedding of [DeliberateMouseDriver.cpp]: the classifier
    [parseMouseElements], the attach sequence [Start_Impl], the button helper
    [setButtonState] and the per-packet interpreter [handleMouseReport],
    followed by the properties the driver's specification states about them. *)

From Stdlib Require Import ZArith List Bool Lia Permutation.
Import ListNotations.
Local Open Scope Z_scope.

(* ------------------------------------------------------------------ *)
(** ** Fixed-width integers *)

Module Int.

(** Conversion to [uint32_t]: reduction modulo 2^32. *)
Definition to_uint32 (z : Z) : Z := z mod 2 ^ 32.

(** Conversion to [int32_t] ([IOFixed] is an [int32_t]): two's complement. *)
Definition to_int32 (z : Z) : Z :=
  let u := z mod 2 ^ 32 in if u <? 2 ^ 31 then u else u - 2 ^ 32.

(** Conversion to [SInt64]. *)
Definition to_int64 (z : Z) : Z :=
  let u := z mod 2 ^ 64 in if u <? 2 ^ 63 then u else u - 2 ^ 64.

(** [a << n] on a 32-bit [int], for a shift count the source writes as a
    literal below the width.  The result is the value congruent to
    [a * 2^n] modulo 2^32 (two's complement); the source relies on this
    when it writes [-3 << 16]. *)
Definition shl (a n : Z) : Z := to_int32 (Z.shiftl a n).

(** [1 << index] for a run-time [uint32_t] count.  C++ gives the expression
    no value when the count reaches the width of [int]; the model marks
    that case [None] instead of choosing a value. *)
Definition shl_checked (a index : Z) : option Z :=
  if (0 <=? index) && (index <? 32) then Some (shl a index) else None.

End Int.

(* ------------------------------------------------------------------ *)
(** ** Constants of the HID and IOKit headers

    The driver includes these from the platform SDK; the values are those of
    the USB HID usage tables and of [IOReturn.h]. *)

Definition kHIDPage_GenericDesktop : Z := 0x01.
Definition kHIDPage_Button : Z := 0x09.
Definition kHIDUsage_GD_X : Z := 0x30.
Definition kHIDUsage_GD_Y : Z := 0x31.
Definition kHIDUsage_GD_Wheel : Z := 0x38.
Definition kHIDUsage_Button_1 : Z := 0x01.
Definition kHIDUsage_Button_255 : Z := 0xFF.

Definition kern_return_t := Z.
Definition kIOReturnSuccess : kern_return_t := 0.
Definition kIOReturnError : kern_return_t := Int.to_int32 0xe00002bc.
Definition kIOReturnInvalid : kern_return_t := Int.to_int32 0xe0000001.

(** [IOHIDElementType]. *)
Inductive IOHIDElementType : Type :=
| kIOHIDElementTypeInput_Misc
| kIOHIDElementTypeInput_Button
| kIOHIDElementTypeInput_Axis
| kIOHIDElementTypeInput_ScanCodes
| kIOHIDElementTypeInput_NULL
| kIOHIDElementTypeOutput
| kIOHIDElementTypeFeature
| kIOHIDElementTypeCollection.

Definition IOHIDElementType_eqb (a b : IOHIDElementType) : bool :=
  match a, b with
  | kIOHIDElementTypeInput_Misc, kIOHIDElementTypeInput_Misc
  | kIOHIDElementTypeInput_Button, kIOHIDElementTypeInput_Button
  | kIOHIDElementTypeInput_Axis, kIOHIDElementTypeInput_Axis
  | kIOHIDElementTypeInput_ScanCodes, kIOHIDElementTypeInput_ScanCodes
  | kIOHIDElementTypeInput_NULL, kIOHIDElementTypeInput_NULL
  | kIOHIDElementTypeOutput, kIOHIDElementTypeOutput
  | kIOHIDElementTypeFeature, kIOHIDElementTypeFeature
  | kIOHIDElementTypeCollection, kIOHIDElementTypeCollection => true
  | _, _ => false
  end.

(** The option bits the driver passes to the two dispatch calls. *)
Inductive IOHIDEventOptions : Type :=
| kIOHIDPointerEventOptionsNoAcceleration
| kIOHIDScrollEventOptionsNoAcceleration.

(** Modelled from the spec: [IOFixedMultiply] is declared by the platform SDK
    and is not part of the repository.  The spec calls it the fixed-point
    product of two 16.16 numbers: the 64-bit product of the operands, shifted
    right by the 16 fractional bits and converted back to [IOFixed]. *)
Definition IOFixedMultiply (a b : Z) : Z :=
  Int.to_int32 (Z.shiftr (Int.to_int64 (Int.to_int64 a * Int.to_int64 b)) 16).

(* ------------------------------------------------------------------ *)
(** ** Data model *)

(** What the driver reads from an [IOHIDElement]. *)
Record IOHIDElement : Type := mkElement {
  getType : IOHIDElementType;
  getUsagePage : Z;        (* uint32_t *)
  getUsage : Z;            (* uint32_t *)
  getReportID : Z;         (* uint32_t *)
  getTimeStamp : Z;        (* uint64_t *)
  getValue : Z             (* int32_t, getValue(0) *)
}.

(** An [OSArray] holds [OSObject]s; [OSDynamicCast] recovers the elements. *)
Inductive OSObject : Type :=
| ObjElement (e : IOHIDElement)
| ObjOther.

Definition OSDynamicCast_IOHIDElement (o : OSObject) : option IOHIDElement :=
  match o with
  | ObjElement e => Some e
  | ObjOther => None
  end.

(** [DeliberateMouseDriver_IVars], without the two host handles.  A
    [buttonState] of [None] is a mask computed from a shift that has no
    value (see [Int.shl_checked]). *)
Record IVars : Type := mkIVars {
  mouseElements : list OSObject;
  buttonState : option Z   (* uint32_t *)
}.

(** [init]: zeroed ivars and an empty element array, when the three
    allocations of the host succeed. *)
Definition init (super_init ivars_allocated array_allocated : bool) : option IVars :=
  if negb super_init then None
  else if negb ivars_allocated then None
  else if negb array_allocated then None
  else Some (mkIVars [] (Some 0)).

(* ------------------------------------------------------------------ *)
(** ** Channel classifier *)

(** The decision taken for one element inside the loop of
    [parseMouseElements]: the fast-fail test, then the two switches. *)
Definition isMouseElement (deviceElement : IOHIDElement) : bool :=
  let type := getType deviceElement in
  let usagePage := getUsagePage deviceElement in
  let usage := getUsage deviceElement in
  if IOHIDElementType_eqb type kIOHIDElementTypeCollection || (usage =? 0) then false
  else if usagePage =? kHIDPage_GenericDesktop then
    if usage =? kHIDUsage_GD_X then true
    else if usage =? kHIDUsage_GD_Y then true
    else if usage =? kHIDUsage_GD_Wheel then true
    else false
  else if usagePage =? kHIDPage_Button then true
  else false.

(** One iteration of the loop; the state is the element array of the ivars
    and the local [foundMouseElements]. *)
Definition parseMouseElements_step (st : list OSObject * bool) (o : OSObject)
  : list OSObject * bool :=
  match OSDynamicCast_IOHIDElement o with
  | None => st
  | Some deviceElement =>
    if isMouseElement deviceElement
    then (fst st ++ [ObjElement deviceElement], true)
    else st
  end.

Definition parseMouseElements (iv : IVars) (deviceElements : list OSObject)
  : IVars * bool :=
  let st := fold_left parseMouseElements_step deviceElements (mouseElements iv, false) in
  (mkIVars (fst st) (buttonState iv), snd st).

(* ------------------------------------------------------------------ *)
(** ** Attach sequence *)

(** What the host answers to the calls [Start_Impl] makes. *)
Record HostAnswers : Type := mkHost {
  superStart : kern_return_t;
  createActionReportAvailable : kern_return_t;
  providerIsInterface : bool;
  interfaceOpen : kern_return_t;
  getElements : option (list OSObject);
  registerService : kern_return_t
}.

(** The host calls [Start_Impl] makes, in order. *)
Inductive HostCall : Type :=
| CallGetProvider
| CallSuperStart
| CallCreateActionReportAvailable
| CallInterfaceOpen
| CallGetElements
| CallRegisterService
| CallStop.

(** [Start_Impl]: the return code, the ivars and the calls made.  Every
    [goto Exit] ends in [Stop(provider)] and returns the error at hand. *)
Definition Start_Impl (host : HostAnswers) (iv : IVars)
  : kern_return_t * IVars * list HostCall :=
  let calls := [CallGetProvider; CallSuperStart] in
  let ret := superStart host in
  if negb (ret =? kIOReturnSuccess) then (ret, iv, calls ++ [CallStop])
  else
  let calls := calls ++ [CallCreateActionReportAvailable] in
  let ret := createActionReportAvailable host in
  if negb (ret =? kIOReturnSuccess) then (ret, iv, calls ++ [CallStop])
  else
  if negb (providerIsInterface host) then (kIOReturnError, iv, calls ++ [CallStop])
  else
  let calls := calls ++ [CallInterfaceOpen] in
  let ret := interfaceOpen host in
  if negb (ret =? kIOReturnSuccess) then (ret, iv, calls ++ [CallStop])
  else
  let calls := calls ++ [CallGetElements] in
  match getElements host with
  | None => (kIOReturnInvalid, iv, calls ++ [CallStop])
  | Some deviceElements =>
    let '(iv', result) := parseMouseElements iv deviceElements in
    if negb result then (kIOReturnInvalid, iv', calls ++ [CallStop])
    else
    let calls := calls ++ [CallRegisterService] in
    let ret := registerService host in
    if negb (ret =? kIOReturnSuccess) then (ret, iv', calls ++ [CallStop])
    else (kIOReturnSuccess, iv', calls)
  end.

(* ------------------------------------------------------------------ *)
(** ** Report interpreter *)

(** [setButtonState]: the new value of the referenced [buttonState], which is
    also what the function returns.  [index] and [value] are [uint32_t]. *)
Definition setButtonState (buttonState : option Z) (index value : Z) : option Z :=
  match Int.shl_checked 1 index, buttonState with
  | Some m, Some bs =>
    let mask := Int.to_uint32 m in
    if value =? 0
    then Some (Z.land bs (Int.to_uint32 (Z.lnot mask)))
    else Some (Z.lor bs mask)
  | _, _ => None
  end.

(** The events handed to the host, with the arguments in call order. *)
Inductive HostEvent : Type :=
| RelativePointerEvent
    (timeStamp dx dy : Z) (buttons : option Z)
    (options : IOHIDEventOptions) (accelerate : bool)
| RelativeScrollWheelEvent
    (timeStamp dx dy dz : Z)
    (options : IOHIDEventOptions) (accelerate : bool).

(** The variables the loop of [handleMouseReport] writes: its three locals
    and [ivars->buttonState]. *)
Record ReportState : Type := mkReport {
  dX : Z;
  dY : Z;
  scrollVert : Z;
  buttons : option Z
}.

(** The two guards at the head of the loop body. *)
Definition matchesReport (timestamp reportID : Z) (element : IOHIDElement) : bool :=
  (reportID =? getReportID element) && (getTimeStamp element =? timestamp).

(** One iteration of the loop of [handleMouseReport]. *)
Definition handleMouseReport_step (timestamp reportID : Z)
  (st : ReportState) (o : OSObject) : ReportState :=
  match OSDynamicCast_IOHIDElement o with
  | None => st
  | Some element =>
    if negb (reportID =? getReportID element) then st
    else if negb (getTimeStamp element =? timestamp) then st
    else
      let usagePage := getUsagePage element in
      let usage := getUsage element in
      let value := getValue element in
      if usagePage =? kHIDPage_GenericDesktop then
        if usage =? kHIDUsage_GD_X then
          mkReport (Int.shl value 15) (dY st) (scrollVert st) (buttons st)
        else if usage =? kHIDUsage_GD_Y then
          mkReport (dX st) (Int.shl value 15) (scrollVert st) (buttons st)
        else if usage =? kHIDUsage_GD_Wheel then
          mkReport (dX st) (dY st)
                   (IOFixedMultiply (Int.shl value 16) (Int.shl (-3) 16))
                   (buttons st)
        else st
      else if usagePage =? kHIDPage_Button then
        if (kHIDUsage_Button_1 <=? usage) && (usage <=? kHIDUsage_Button_255) then
          mkReport (dX st) (dY st) (scrollVert st)
                   (setButtonState (buttons st)
                                   (Int.to_uint32 (usage - kHIDUsage_Button_1))
                                   (Int.to_uint32 value))
        else st
      else st
  end.

Definition handleMouseReport_loop (timestamp reportID : Z)
  (elements : list OSObject) (st : ReportState) : ReportState :=
  fold_left (handleMouseReport_step timestamp reportID) elements st.

(** [handleMouseReport]: the ivars after the call and the events dispatched.
    The two dispatch calls follow the loop without a condition; an undefined
    shift inside the loop shows in the mask they carry, not in their number. *)
Definition handleMouseReport (iv : IVars) (timestamp reportID : Z)
  : IVars * list HostEvent :=
  let st := handleMouseReport_loop timestamp reportID (mouseElements iv)
                                   (mkReport 0 0 0 (buttonState iv)) in
  (mkIVars (mouseElements iv) (buttons st),
   [ RelativePointerEvent timestamp (dX st) (dY st) (buttons st)
       kIOHIDPointerEventOptionsNoAcceleration false;
     RelativeScrollWheelEvent timestamp (scrollVert st) 0 0
       kIOHIDScrollEventOptionsNoAcceleration false ]).

(** [handleReport] forwards the timestamp and the report ID. *)
Definition handleReport (iv : IVars) (timestamp : Z) (reportID : Z)
  : IVars * list HostEvent :=
  handleMouseReport iv timestamp reportID.

(** Between two packets the host refreshes the values and timestamps of the
    retained elements; the driver's own state is left as it is. *)
Definition refreshElements (iv : IVars) (elements : list OSObject) : IVars :=
  mkIVars elements (buttonState iv).

(** Predicates on elements used in the statements below. *)
Definition isButtonChannel (e : IOHIDElement) : bool :=
  getUsagePage e =? kHIDPage_Button.

Definition inButtonRange (e : IOHIDElement) : bool :=
  (kHIDUsage_Button_1 <=? getUsage e) && (getUsage e <=? kHIDUsage_Button_255).

Definition isAxisChannel (usage : Z) (e : IOHIDElement) : bool :=
  (getUsagePage e =? kHIDPage_GenericDesktop) && (getUsage e =? usage).

(** The elements of an array that are HID elements. *)
Definition elementsOf (l : list OSObject) : list IOHIDElement :=
  flat_map (fun o => match OSDynamicCast_IOHIDElement o with
                     | Some e => [e] | None => [] end) l.

(* ------------------------------------------------------------------ *)
(** ** Channels of a simple mouse

    The channels a two-axis, one-wheel, multi-button mouse declares, used to
    run the definitions above on concrete packets. *)

Definition axisChannel (usage reportID timeStamp value : Z) : IOHIDElement :=
  mkElement kIOHIDElementTypeInput_Misc kHIDPage_GenericDesktop usage
            reportID timeStamp value.

Definition xChannel : Z -> Z -> Z -> IOHIDElement := axisChannel kHIDUsage_GD_X.
Definition yChannel : Z -> Z -> Z -> IOHIDElement := axisChannel kHIDUsage_GD_Y.
Definition wheelChannel : Z -> Z -> Z -> IOHIDElement := axisChannel kHIDUsage_GD_Wheel.

Definition buttonChannel (usage reportID timeStamp value : Z) : IOHIDElement :=
  mkElement kIOHIDElementTypeInput_Button kHIDPage_Button usage
            reportID timeStamp value.

(** The application collection that wraps the channels of a mouse. *)
Definition mouseCollection : IOHIDElement :=
  mkElement kIOHIDElementTypeCollection kHIDPage_GenericDesktop 0x02 0 0 0.

(** A keyboard key: usage page 0x07. *)
Definition keyChannel (usage : Z) : IOHIDElement :=
  mkElement kIOHIDElementTypeInput_Button 0x07 usage 0 0 0.

(** The driver as [init] leaves it. *)
Definition freshIVars : IVars := mkIVars [] (Some 0).

(** A mouse with two axes, a wheel and two buttons that also declares a key
    and holds an object that is not an element. *)
Definition mouseDevice : list OSObject :=
  [ ObjElement mouseCollection;
    ObjElement (xChannel 1 0 0);
    ObjElement (yChannel 1 0 0);
    ObjElement (wheelChannel 1 0 0);
    ObjElement (buttonChannel 1 1 0 0);
    ObjElement (buttonChannel 2 1 0 0);
    ObjElement (keyChannel 4);
    ObjOther ].

(** An interface without mouse channels: a collection, a key, a Z axis. *)
Definition keyboardDevice : list OSObject :=
  [ ObjElement mouseCollection;
    ObjElement (keyChannel 4);
    ObjElement (axisChannel 0x32 1 0 0) ].

(** A host on which every call succeeds. *)
Definition hostAllOk (deviceElements : list OSObject) : HostAnswers :=
  mkHost kIOReturnSuccess kIOReturnSuccess true kIOReturnSuccess
         (Some deviceElements) kIOReturnSuccess.

(* ------------------------------------------------------------------ *)
(** ** Detach sequence *)

(** The two host handles of the ivars, as [Stop_Impl] tests them: whether
    [ivars->interface] and [ivars->reportAvailableAction] are set. *)
Record Handles : Type := mkHandles {
  interface : bool;
  reportAvailableAction : bool
}.

(** The calls [Stop_Impl] and its [finalize] block make. *)
Inductive StopCall : Type :=
| StopInterfaceClose
| StopSuperStop
| StopRetainThis
| StopRetainProvider
| StopActionCancel
| StopReleaseThis
| StopReleaseProvider.

Definition StopCall_eqb (a b : StopCall) : bool :=
  match a, b with
  | StopInterfaceClose, StopInterfaceClose
  | StopSuperStop, StopSuperStop
  | StopRetainThis, StopRetainThis
  | StopRetainProvider, StopRetainProvider
  | StopActionCancel, StopActionCancel
  | StopReleaseThis, StopReleaseThis
  | StopReleaseProvider, StopReleaseProvider => true
  | _, _ => false
  end.

(** How often a call occurs in a sequence of calls. *)
Definition countCall (c : StopCall) (calls : list StopCall) : nat :=
  length (filter (StopCall_eqb c) calls).

(** The [finalize] block of [Stop_Impl], run by the host when a cancel has
    completed: the counter after the [fetch_sub] and the calls made.  The
    block tests the value the counter had before the subtraction. *)
Definition Stop_finalize (cancelCount : Z) : Z * list StopCall :=
  let previous := cancelCount in
  let cancelCount := Int.to_uint32 (previous - 1) in
  if previous <=? 1
  then (cancelCount, [StopSuperStop; StopReleaseThis; StopReleaseProvider])
  else (cancelCount, []).

(** [Stop_Impl]: the return code, the calls made before it returns, and the
    counter captured by the block handed to [Cancel], if one was handed over.
    [superStop] is what [Stop(provider, SUPERDISPATCH)] answers; [ivars] is
    [None] for a null pointer. *)
Definition Stop_Impl (superStop : kern_return_t) (ivars : option Handles)
  : kern_return_t * list StopCall * option Z :=
  let ret := kIOReturnSuccess in
  let cancelCount := 0 in
  let '(calls, cancelCount) :=
    match ivars with
    | Some h =>
      ((if interface h then [StopInterfaceClose] else []),
       (if reportAvailableAction h
        then Int.to_uint32 (cancelCount + 1) else cancelCount))
    | None => ([], cancelCount)
    end in
  if cancelCount =? 0 then (superStop, calls ++ [StopSuperStop], None)
  else
    let calls := calls ++ [StopRetainThis; StopRetainProvider] in
    if match ivars with
       | Some h => reportAvailableAction h
       | None => false
       end
    then (ret, calls ++ [StopActionCancel], Some cancelCount)
    else (ret, calls ++ [StopReleaseProvider; StopReleaseThis], None).

(** The block run for [n] completed cancels in a row. *)
Fixpoint Stop_finalize_times (n : nat) (cancelCount : Z) : Z * list StopCall :=
  match n with
  | O => (cancelCount, [])
  | S n' =>
    let '(cancelCount', calls) := Stop_finalize cancelCount in
    let '(cancelCount'', calls') := Stop_finalize_times n' cancelCount' in
    (cancelCount'', calls ++ calls')
  end.

(** A detach carried to its end: [Stop_Impl], then the block once if a
    cancel was started. *)
Definition Stop_completed (superStop : kern_return_t) (ivars : option Handles)
  : list StopCall :=
  let '(_, calls, pending) := Stop_Impl superStop ivars in
  match pending with
  | Some cancelCount => calls ++ snd (Stop_finalize cancelCount)
  | None => calls
  end.

(* ------------------------------------------------------------------ *)
(** ** Packets in sequence *)

(** A packet as the driver sees it: the retained elements as the host has
    refreshed them, and the arguments of [handleReport]. *)
Record Packet : Type := mkPacket {
  packetElements : list OSObject;
  packetTimestamp : Z;
  packetReportID : Z
}.

Definition handlePacket (iv : IVars) (p : Packet) : IVars * list HostEvent :=
  handleReport (refreshElements iv (packetElements p))
               (packetTimestamp p) (packetReportID p).

(** The host delivers packets one after the other; the events add up. *)
Definition handlePackets (iv : IVars) (packets : list Packet)
  : IVars * list HostEvent :=
  fold_left (fun acc p => let r := handlePacket (fst acc) p in
                          (fst r, snd acc ++ snd r))
            packets (iv, []).

(** What a dispatched pair of events carries. *)
Definition pointerDeltas (events : list HostEvent) : option (Z * Z) :=
  match events with
  | RelativePointerEvent _ dx dy _ _ _ :: _ => Some (dx, dy)
  | _ => None
  end.

Definition scrollDelta (events : list HostEvent) : option Z :=
  match events with
  | _ :: RelativeScrollWheelEvent _ dv _ _ _ _ :: _ => Some dv
  | _ => None
  end.

Definition pointerMask (events : list HostEvent) : option Z :=
  match events with
  | RelativePointerEvent _ _ _ mask _ _ :: _ => mask
  | _ => None
  end.

(** The objects of the array that pass the two guards of the loop. *)
Definition passesGuards (timestamp reportID : Z) (o : OSObject) : bool :=
  match OSDynamicCast_IOHIDElement o with
  | Some element => matchesReport timestamp reportID element
  | None => false
  end.

(** The ranges of the two integer types the driver computes in. *)
Definition inUint32 (z : Z) : Prop := 0 <= z < 2 ^ 32.
Definition inInt32 (z : Z) : Prop := - 2 ^ 31 <= z < 2 ^ 31.

(** A three-button mouse whose channels were all refreshed by the packet. *)
Definition threeButtonPacket (timestamp dx dy wheel b1 b2 b3 : Z) : list OSObject :=
  [ ObjElement (xChannel 1 timestamp dx);
    ObjElement (yChannel 1 timestamp dy);
    ObjElement (wheelChannel 1 timestamp wheel);
    ObjElement (buttonChannel 1 1 timestamp b1);
    ObjElement (buttonChannel 2 1 timestamp b2);
    ObjElement (buttonChannel 3 1 timestamp b3) ].

(* ------------------------------------------------------------------ *)
(** ** Properties of the classifier *)

Section Classifier.

Lemma IOHIDElementType_eqb_eq (a b : IOHIDElementType) :
  IOHIDElementType_eqb a b = true <-> a = b.
Proof.
  split.
  - destruct a, b; simpl; intros H; try reflexivity; discriminate H.
  - intros ->. destruct b; reflexivity.
Qed.

(** The acceptance policy, read off the two switches. *)
Lemma isMouseElement_spec (e : IOHIDElement) :
  isMouseElement e = true <->
  getType e <> kIOHIDElementTypeCollection /\
  getUsage e <> 0 /\
  (getUsagePage e = kHIDPage_Button \/
   (getUsagePage e = kHIDPage_GenericDesktop /\
    (getUsage e = kHIDUsage_GD_X \/ getUsage e = kHIDUsage_GD_Y \/
     getUsage e = kHIDUsage_GD_Wheel))).
Proof.
  unfold isMouseElement.
  destruct (IOHIDElementType_eqb (getType e) kIOHIDElementTypeCollection) eqn:Ht.
  - apply IOHIDElementType_eqb_eq in Ht. simpl.
    split; [discriminate | intros [H _]; contradiction].
  - assert (Hty : getType e <> kIOHIDElementTypeCollection).
    { intros H. apply IOHIDElementType_eqb_eq in H. congruence. }
    simpl.
    destruct (Z.eqb_spec (getUsage e) 0) as [Hu | Hu].
    { split; [discriminate | intros (_ & H & _); contradiction]. }
    destruct (Z.eqb_spec (getUsagePage e) kHIDPage_GenericDesktop) as [Hp | Hp].
    + destruct (Z.eqb_spec (getUsage e) kHIDUsage_GD_X) as [Hx | Hx];
        [ now intuition | ].
      destruct (Z.eqb_spec (getUsage e) kHIDUsage_GD_Y) as [Hy | Hy];
        [ now intuition | ].
      destruct (Z.eqb_spec (getUsage e) kHIDUsage_GD_Wheel) as [Hw | Hw];
        [ now intuition | ].
      split; [discriminate | ].
      intros (_ & _ & [Hb | (_ & [H | [H | H]])]); try contradiction.
      rewrite Hp in Hb. discriminate Hb.
    + destruct (Z.eqb_spec (getUsagePage e) kHIDPage_Button) as [Hb | Hb].
      * now intuition.
      * split; [discriminate | ].
        intros (_ & _ & [H | (H & _)]); contradiction.
Qed.

(** The loop appends the accepted elements in the order met and raises the
    flag at the first of them. *)
Lemma parseMouseElements_fold (deviceElements : list OSObject) :
  forall (acc : list OSObject) (found : bool),
    fold_left parseMouseElements_step deviceElements (acc, found) =
    (acc ++ map ObjElement (filter isMouseElement (elementsOf deviceElements)),
     found || existsb isMouseElement (elementsOf deviceElements)).
Proof.
  induction deviceElements as [| o rest IH]; intros acc found; simpl.
  - now rewrite app_nil_r, orb_false_r.
  - destruct o as [e |]; unfold parseMouseElements_step at 2; simpl.
    + destruct (isMouseElement e) eqn:He; simpl; rewrite IH.
      * now rewrite <- app_assoc, orb_true_r.
      * reflexivity.
    + apply IH.
Qed.

Lemma parseMouseElements_set (iv : IVars) (deviceElements : list OSObject) :
  mouseElements (fst (parseMouseElements iv deviceElements)) =
  mouseElements iv ++
    map ObjElement (filter isMouseElement (elementsOf deviceElements)).
Proof.
  unfold parseMouseElements. now rewrite parseMouseElements_fold.
Qed.

Lemma parseMouseElements_found (iv : IVars) (deviceElements : list OSObject) :
  snd (parseMouseElements iv deviceElements) =
  existsb isMouseElement (elementsOf deviceElements).
Proof.
  unfold parseMouseElements. now rewrite parseMouseElements_fold.
Qed.

Lemma In_elementsOf (l : list OSObject) (e : IOHIDElement) :
  In e (elementsOf l) <-> In (ObjElement e) l.
Proof.
  unfold elementsOf. rewrite in_flat_map. split.
  - intros (o & Ho & He). destruct o as [e' |]; simpl in He.
    + destruct He as [-> | []]. exact Ho.
    + contradiction.
  - intros H. exists (ObjElement e). split; [exact H | now left].
Qed.

Lemma In_accepted (l : list OSObject) (o : OSObject) :
  In o (map ObjElement (filter isMouseElement (elementsOf l))) <->
  exists e, o = ObjElement e /\ In o l /\ isMouseElement e = true.
Proof.
  rewrite in_map_iff. split.
  - intros (e & <- & He). apply filter_In in He as [He Ha].
    exists e. now rewrite <- In_elementsOf.
  - intros (e & -> & Hin & Ha). exists e. split; [reflexivity | ].
    apply filter_In. now rewrite In_elementsOf.
Qed.

End Classifier.

(** C3. Acceptance policy of [parseMouseElements].  For a channel of the
    device that is not a collection and whose usage is not 0: on the button
    page it is classified whatever its usage code; on the generic desktop
    page it is classified exactly when its usage is X, Y or wheel; on any
    other page it is not classified. *)
Theorem parseMouseElements_acceptance :
  forall (iv : IVars) (deviceElements : list OSObject) (e : IOHIDElement),
    mouseElements iv = [] ->
    In (ObjElement e) deviceElements ->
    getType e <> kIOHIDElementTypeCollection ->
    getUsage e <> 0 ->
    let classified := mouseElements (fst (parseMouseElements iv deviceElements)) in
    (getUsagePage e = kHIDPage_Button -> In (ObjElement e) classified) /\
    (getUsagePage e = kHIDPage_GenericDesktop ->
       (In (ObjElement e) classified <->
        getUsage e = kHIDUsage_GD_X \/ getUsage e = kHIDUsage_GD_Y \/
        getUsage e = kHIDUsage_GD_Wheel)) /\
    (getUsagePage e <> kHIDPage_GenericDesktop ->
     getUsagePage e <> kHIDPage_Button ->
     ~ In (ObjElement e) classified).
Proof.
  intros iv deviceElements e Hempty Hin Hty Hus classified.
  assert (Hcl : In (ObjElement e) classified <-> isMouseElement e = true).
  { unfold classified. rewrite parseMouseElements_set, Hempty. simpl.
    rewrite In_accepted. split.
    - intros (e' & Heq & _ & Ha). now injection Heq as ->.
    - intros Ha. now exists e. }
  rewrite Hcl, isMouseElement_spec.
  split; [ | split].
  - intros Hb. auto.
  - intros Hp. split.
    + intros (_ & _ & [Hb | (_ & H)]); [ | exact H].
      rewrite Hp in Hb. discriminate Hb.
    + intros H. auto.
  - intros Hgd Hb (_ & _ & [H | (H & _)]); contradiction.
Qed.

(** C4. Starting from the empty array that [init] allocates, every member of
    the classified set is an element of the device whose type is not a
    collection and whose usage is not 0. *)
Theorem parseMouseElements_purity :
  forall (iv : IVars) (deviceElements : list OSObject) (o : OSObject),
    mouseElements iv = [] ->
    In o (mouseElements (fst (parseMouseElements iv deviceElements))) ->
    exists e, o = ObjElement e /\ In o deviceElements /\
              getType e <> kIOHIDElementTypeCollection /\ getUsage e <> 0.
Proof.
  intros iv deviceElements o Hempty Hin.
  rewrite parseMouseElements_set, Hempty in Hin. simpl in Hin.
  apply In_accepted in Hin as (e & -> & Hdev & Ha).
  apply isMouseElement_spec in Ha as (Hty & Hus & _).
  now exists e.
Qed.

(** C7. [parseMouseElements] returns true exactly when the device declares a
    channel the acceptance policy takes; when it returns false, [Start_Impl]
    does not return success (it returns [kIOReturnInvalid] once the earlier
    host calls have succeeded), never calls [RegisterService], and ends in
    [Stop]. *)
Theorem parseMouseElements_found_iff_and_attach_fails :
  forall (iv : IVars) (deviceElements : list OSObject),
    (snd (parseMouseElements iv deviceElements) = true <->
     exists e, In (ObjElement e) deviceElements /\ isMouseElement e = true) /\
    (forall host : HostAnswers,
       getElements host = Some deviceElements ->
       snd (parseMouseElements iv deviceElements) = false ->
       let '(ret, _, calls) := Start_Impl host iv in
       ret <> kIOReturnSuccess /\
       ~ In CallRegisterService calls /\
       last calls CallGetProvider = CallStop /\
       (superStart host = kIOReturnSuccess ->
        createActionReportAvailable host = kIOReturnSuccess ->
        providerIsInterface host = true ->
        interfaceOpen host = kIOReturnSuccess ->
        ret = kIOReturnInvalid /\ In CallGetElements calls)).
Proof.
  intros iv deviceElements. split.
  - rewrite parseMouseElements_found, existsb_exists.
    split; intros (e & He & Ha); exists e; split; auto;
      now apply In_elementsOf.
  - intros host Hel Hfound. unfold Start_Impl. rewrite Hel.
    destruct (parseMouseElements iv deviceElements) as [iv' result] eqn:Hp.
    simpl in Hfound. subst result. simpl.
    destruct (Z.eqb_spec (superStart host) kIOReturnSuccess) as [H1 | H1];
      [ | cbn; intuition discriminate ].
    destruct (Z.eqb_spec (createActionReportAvailable host) kIOReturnSuccess)
      as [H2 | H2]; [ | cbn; intuition discriminate ].
    destruct (providerIsInterface host) eqn:H3;
      [ | cbn; intuition discriminate ].
    destruct (Z.eqb_spec (interfaceOpen host) kIOReturnSuccess) as [H4 | H4];
      [ | cbn; intuition discriminate ].
    cbn; intuition discriminate.
Qed.

(* ------------------------------------------------------------------ *)
(** ** Properties of the report interpreter *)

Section Interpreter.

Variables timestamp reportID : Z.

Lemma matchesReport_false (e : IOHIDElement) :
  matchesReport timestamp reportID e = false <->
  getReportID e <> reportID \/ getTimeStamp e <> timestamp.
Proof.
  unfold matchesReport. rewrite andb_false_iff, !Z.eqb_neq.
  split; intros [H | H]; auto.
Qed.

Lemma matchesReport_true (e : IOHIDElement) :
  matchesReport timestamp reportID e = true <->
  getReportID e = reportID /\ getTimeStamp e = timestamp.
Proof.
  unfold matchesReport. rewrite andb_true_iff, !Z.eqb_eq.
  split; intros [H1 H2]; auto.
Qed.

(** A channel that fails either guard leaves every variable as it was. *)
Lemma step_skip (st : ReportState) (e : IOHIDElement) :
  matchesReport timestamp reportID e = false ->
  handleMouseReport_step timestamp reportID st (ObjElement e) = st.
Proof.
  unfold matchesReport, handleMouseReport_step. simpl.
  destruct (reportID =? getReportID e); simpl; [ | reflexivity].
  now intros ->.
Qed.

(** Past the guards only the two switches remain. *)
Lemma step_match (st : ReportState) (e : IOHIDElement) :
  matchesReport timestamp reportID e = true ->
  handleMouseReport_step timestamp reportID st (ObjElement e) =
  if getUsagePage e =? kHIDPage_GenericDesktop then
    if getUsage e =? kHIDUsage_GD_X then
      mkReport (Int.shl (getValue e) 15) (dY st) (scrollVert st) (buttons st)
    else if getUsage e =? kHIDUsage_GD_Y then
      mkReport (dX st) (Int.shl (getValue e) 15) (scrollVert st) (buttons st)
    else if getUsage e =? kHIDUsage_GD_Wheel then
      mkReport (dX st) (dY st)
               (IOFixedMultiply (Int.shl (getValue e) 16) (Int.shl (-3) 16))
               (buttons st)
    else st
  else if getUsagePage e =? kHIDPage_Button then
    if inButtonRange e then
      mkReport (dX st) (dY st) (scrollVert st)
               (setButtonState (buttons st)
                               (Int.to_uint32 (getUsage e - kHIDUsage_Button_1))
                               (Int.to_uint32 (getValue e)))
    else st
  else st.
Proof.
  unfold matchesReport, handleMouseReport_step, inButtonRange. simpl.
  intros H. apply andb_true_iff in H as [-> ->]. reflexivity.
Qed.

Lemma loop_app (l1 l2 : list OSObject) (st : ReportState) :
  handleMouseReport_loop timestamp reportID (l1 ++ l2) st =
  handleMouseReport_loop timestamp reportID l2
    (handleMouseReport_loop timestamp reportID l1 st).
Proof. apply fold_left_app. Qed.

Lemma loop_cons (o : OSObject) (l : list OSObject) (st : ReportState) :
  handleMouseReport_loop timestamp reportID (o :: l) st =
  handleMouseReport_loop timestamp reportID l
    (handleMouseReport_step timestamp reportID st o).
Proof. reflexivity. Qed.

(** Removing an element the step ignores does not change the loop. *)
Lemma loop_remove (l1 l2 : list OSObject) (o : OSObject) :
  (forall st, handleMouseReport_step timestamp reportID st o = st) ->
  forall st,
    handleMouseReport_loop timestamp reportID (l1 ++ o :: l2) st =
    handleMouseReport_loop timestamp reportID (l1 ++ l2) st.
Proof.
  intros Hskip st. now rewrite !loop_app, loop_cons, Hskip.
Qed.

(** When nothing in the array passes the guards the loop is the identity. *)
Lemma loop_no_match (l : list OSObject) :
  (forall e, In (ObjElement e) l -> matchesReport timestamp reportID e = false) ->
  forall st, handleMouseReport_loop timestamp reportID l st = st.
Proof.
  induction l as [| o l IH]; intros Hnone st; [reflexivity | ].
  rewrite loop_cons.
  assert (Hstep : handleMouseReport_step timestamp reportID st o = st).
  { destruct o as [e |]; [ | reflexivity].
    apply step_skip, Hnone. now left. }
  rewrite Hstep. apply IH. intros e He. apply Hnone. now right.
Qed.

(** The step never writes the button state unless the channel is a matching
    button channel inside the usage gate. *)
Lemma step_buttons (st : ReportState) (o : OSObject) :
  buttons (handleMouseReport_step timestamp reportID st o) =
  match o with
  | ObjElement e =>
    if matchesReport timestamp reportID e && isButtonChannel e && inButtonRange e
    then setButtonState (buttons st)
                        (Int.to_uint32 (getUsage e - kHIDUsage_Button_1))
                        (Int.to_uint32 (getValue e))
    else buttons st
  | ObjOther => buttons st
  end.
Proof.
  destruct o as [e |]; [ | reflexivity].
  destruct (matchesReport timestamp reportID e) eqn:Hm.
  - rewrite step_match by exact Hm. unfold isButtonChannel. simpl.
    destruct (Z.eqb_spec (getUsagePage e) kHIDPage_GenericDesktop) as [Hp | Hp].
    + rewrite Hp. simpl.
      destruct (getUsage e =? kHIDUsage_GD_X); [reflexivity | ].
      destruct (getUsage e =? kHIDUsage_GD_Y); [reflexivity | ].
      destruct (getUsage e =? kHIDUsage_GD_Wheel); reflexivity.
    + destruct (getUsagePage e =? kHIDPage_Button); simpl; [ | reflexivity].
      destruct (inButtonRange e); reflexivity.
  - now rewrite step_skip.
Qed.

(** An undefined button state stays undefined. *)
Lemma setButtonState_None (index value : Z) :
  setButtonState None index value = None.
Proof. unfold setButtonState. now destruct (Int.shl_checked 1 index). Qed.

Lemma loop_buttons_None (l : list OSObject) :
  forall st, buttons st = None ->
             buttons (handleMouseReport_loop timestamp reportID l st) = None.
Proof.
  induction l as [| o l IH]; intros st Hst; [exact Hst | ].
  rewrite loop_cons. apply IH. rewrite step_buttons.
  destruct o as [e |]; [ | exact Hst].
  destruct (_ && _); [ | exact Hst].
  rewrite Hst. apply setButtonState_None.
Qed.

End Interpreter.

Section Axes.

Variables timestamp reportID : Z.

Local Abbreviation step := (handleMouseReport_step timestamp reportID).
Local Abbreviation loop := (handleMouseReport_loop timestamp reportID).
Local Abbreviation hit usage e :=
  (matchesReport timestamp reportID e && isAxisChannel usage e).

(** What one iteration does to each of the three locals. *)
Lemma step_axes (st : ReportState) (e : IOHIDElement) :
  dX (step st (ObjElement e)) =
    (if hit kHIDUsage_GD_X e then Int.shl (getValue e) 15 else dX st) /\
  dY (step st (ObjElement e)) =
    (if hit kHIDUsage_GD_Y e then Int.shl (getValue e) 15 else dY st) /\
  scrollVert (step st (ObjElement e)) =
    (if hit kHIDUsage_GD_Wheel e
     then IOFixedMultiply (Int.shl (getValue e) 16) (Int.shl (-3) 16)
     else scrollVert st).
Proof.
  unfold isAxisChannel.
  destruct (matchesReport timestamp reportID e) eqn:Hm.
  - rewrite step_match by exact Hm. simpl.
    destruct (getUsagePage e =? kHIDPage_GenericDesktop); simpl.
    + destruct (Z.eqb_spec (getUsage e) kHIDUsage_GD_X) as [Hx | Hx].
      { rewrite Hx. simpl. auto. }
      destruct (Z.eqb_spec (getUsage e) kHIDUsage_GD_Y) as [Hy | Hy].
      { rewrite Hy. simpl. auto. }
      destruct (Z.eqb_spec (getUsage e) kHIDUsage_GD_Wheel) as [Hw | Hw];
        simpl; auto.
    + destruct (getUsagePage e =? kHIDPage_Button); [ | auto].
      destruct (inButtonRange e); simpl; auto.
  - rewrite step_skip by exact Hm. simpl. auto.
Qed.

(** A suffix without a matching channel of an axis leaves its local alone. *)
Lemma loop_axes_untouched (l : list OSObject) :
  forall st,
    ((forall e, In (ObjElement e) l -> hit kHIDUsage_GD_X e = false) ->
     dX (loop l st) = dX st) /\
    ((forall e, In (ObjElement e) l -> hit kHIDUsage_GD_Y e = false) ->
     dY (loop l st) = dY st) /\
    ((forall e, In (ObjElement e) l -> hit kHIDUsage_GD_Wheel e = false) ->
     scrollVert (loop l st) = scrollVert st).
Proof.
  induction l as [| o l IH]; intros st; [now repeat split | ].
  rewrite loop_cons.
  destruct (IH (step st o)) as (IHx & IHy & IHw).
  destruct o as [e |].
  - destruct (step_axes st e) as (Hx & Hy & Hw).
    repeat split; intros Hnone.
    + rewrite IHx by (intros e' He'; apply Hnone; now right).
      rewrite Hx, (Hnone e) by now left. reflexivity.
    + rewrite IHy by (intros e' He'; apply Hnone; now right).
      rewrite Hy, (Hnone e) by now left. reflexivity.
    + rewrite IHw by (intros e' He'; apply Hnone; now right).
      rewrite Hw, (Hnone e) by now left. reflexivity.
  - repeat split; intros Hnone;
      [apply IHx | apply IHy | apply IHw];
      intros e' He'; apply Hnone; now right.
Qed.

(** The last matching channel of an axis decides the value of its local. *)
Lemma loop_last_axis (l1 l2 : list OSObject) (e : IOHIDElement) (st : ReportState) :
  let final := loop (l1 ++ ObjElement e :: l2) st in
  (hit kHIDUsage_GD_X e = true ->
   (forall e', In (ObjElement e') l2 -> hit kHIDUsage_GD_X e' = false) ->
   dX final = Int.shl (getValue e) 15) /\
  (hit kHIDUsage_GD_Y e = true ->
   (forall e', In (ObjElement e') l2 -> hit kHIDUsage_GD_Y e' = false) ->
   dY final = Int.shl (getValue e) 15) /\
  (hit kHIDUsage_GD_Wheel e = true ->
   (forall e', In (ObjElement e') l2 -> hit kHIDUsage_GD_Wheel e' = false) ->
   scrollVert final =
     IOFixedMultiply (Int.shl (getValue e) 16) (Int.shl (-3) 16)).
Proof.
  intros final. unfold final.
  rewrite loop_app, loop_cons.
  set (st1 := loop l1 st).
  destruct (loop_axes_untouched l2 (step st1 (ObjElement e))) as (Ux & Uy & Uw).
  destruct (step_axes st1 e) as (Hx & Hy & Hw).
  repeat split; intros Hhit Hlater.
  - rewrite Ux, Hx, Hhit by exact Hlater. reflexivity.
  - rewrite Uy, Hy, Hhit by exact Hlater. reflexivity.
  - rewrite Uw, Hw, Hhit by exact Hlater. reflexivity.
Qed.

End Axes.

Section ButtonBits.

Lemma to_uint32_to_int32 (z : Z) : Int.to_uint32 (Int.to_int32 z) = Int.to_uint32 z.
Proof.
  unfold Int.to_uint32, Int.to_int32.
  destruct (z mod 2 ^ 32 <? 2 ^ 31).
  - apply Z.mod_mod. lia.
  - replace (z mod 2 ^ 32 - 2 ^ 32) with (z mod 2 ^ 32 + (-1) * 2 ^ 32) by lia.
    rewrite Z.mod_add by lia. apply Z.mod_mod. lia.
Qed.

(** Below the width of the mask, [1 << index] is the single bit [index]. *)
Lemma mask_in_range (index : Z) :
  0 <= index < 32 ->
  exists m, Int.shl_checked 1 index = Some m /\ Int.to_uint32 m = 2 ^ index.
Proof.
  intros Hi. unfold Int.shl_checked.
  replace ((0 <=? index) && (index <? 32)) with true
    by (symmetry; apply andb_true_iff; split; [apply Z.leb_le | apply Z.ltb_lt]; lia).
  eexists. split; [reflexivity | ].
  unfold Int.shl. rewrite to_uint32_to_int32, Z.shiftl_1_l.
  unfold Int.to_uint32. apply Z.mod_small. split.
  - apply Z.pow_nonneg. lia.
  - apply Z.pow_lt_mono_r; lia.
Qed.

(** At or past the width the shift has no value. *)
Lemma mask_out_of_range (index : Z) :
  32 <= index -> Int.shl_checked 1 index = None.
Proof.
  intros Hi. unfold Int.shl_checked.
  replace (index <? 32) with false by (symmetry; apply Z.ltb_ge; lia).
  now rewrite andb_false_r.
Qed.

(** [setButtonState] inside the mask: bit [index] takes the pressed state,
    every other bit of the mask keeps its value. *)
Lemma setButtonState_bits (bs index value : Z) :
  0 <= index < 32 ->
  exists bs', setButtonState (Some bs) index value = Some bs' /\
              forall i, 0 <= i < 32 ->
                        Z.testbit bs' i =
                        if i =? index then negb (value =? 0) else Z.testbit bs i.
Proof.
  intros Hi. destruct (mask_in_range index Hi) as (m & Hm & Hmask).
  unfold setButtonState. rewrite Hm, Hmask.
  destruct (value =? 0); eexists; (split; [reflexivity | ]); intros i Hb; simpl.
  - rewrite Z.land_spec. unfold Int.to_uint32.
    rewrite Z.mod_pow2_bits_low by lia.
    rewrite Z.lnot_spec by lia. rewrite Z.pow2_bits_eqb by lia.
    rewrite (Z.eqb_sym index i).
    destruct (i =? index); simpl; [apply andb_false_r | apply andb_true_r].
  - rewrite Z.lor_spec, Z.pow2_bits_eqb by lia.
    rewrite (Z.eqb_sym index i).
    destruct (i =? index); simpl; [apply orb_true_r | apply orb_false_r].
Qed.

Lemma setButtonState_defined (b : option Z) (index value bs' : Z) :
  setButtonState b index value = Some bs' ->
  0 <= index < 32 /\ exists bs, b = Some bs.
Proof.
  unfold setButtonState, Int.shl_checked.
  destruct ((0 <=? index) && (index <? 32)) eqn:Hr; [ | discriminate].
  apply andb_true_iff in Hr as [H1 H2].
  apply Z.leb_le in H1. apply Z.ltb_lt in H2.
  destruct b as [bs |]; [ | discriminate].
  intros _. split; [lia | now exists bs].
Qed.

(** Inside the usage gate the index is the usage minus the first button. *)
Lemma button_index (e : IOHIDElement) :
  inButtonRange e = true ->
  Int.to_uint32 (getUsage e - kHIDUsage_Button_1) = getUsage e - kHIDUsage_Button_1 /\
  0 <= getUsage e - kHIDUsage_Button_1 <= 254.
Proof.
  unfold inButtonRange, kHIDUsage_Button_1, kHIDUsage_Button_255.
  intros H. apply andb_true_iff in H as [H1 H2].
  apply Z.leb_le in H1. apply Z.leb_le in H2.
  split; [ | lia]. unfold Int.to_uint32. apply Z.mod_small. lia.
Qed.

End ButtonBits.

Section ButtonFrame.

Variables timestamp reportID : Z.

Local Abbreviation loop := (handleMouseReport_loop timestamp reportID).
Local Abbreviation touches e :=
  (matchesReport timestamp reportID e && isButtonChannel e && inButtonRange e).

(** Without a matching button channel inside the gate the button state is
    not written at all. *)
Lemma loop_buttons_untouched (l : list OSObject) :
  (forall e, In (ObjElement e) l -> touches e = false) ->
  forall st, buttons (loop l st) = buttons st.
Proof.
  induction l as [| o l IH]; intros Hnone st; [reflexivity | ].
  rewrite loop_cons, IH by (intros e He; apply Hnone; now right).
  rewrite step_buttons. destruct o as [e |]; [ | reflexivity].
  rewrite (Hnone e) by now left. reflexivity.
Qed.

(** A bit of the mask that no processed button channel indexes keeps its
    value through the loop, whenever the final state is a defined mask. *)
Lemma loop_buttons_frame (l : list OSObject) :
  forall (st : ReportState) (b b' i : Z),
    buttons st = Some b ->
    buttons (loop l st) = Some b' ->
    0 <= i < 32 ->
    (forall e, In (ObjElement e) l -> touches e = true ->
               getUsage e - kHIDUsage_Button_1 <> i) ->
    Z.testbit b' i = Z.testbit b i.
Proof.
  induction l as [| o l IH]; intros st b b' i Hb Hb' Hi Hfree.
  - simpl in Hb'. congruence.
  - rewrite loop_cons in Hb'.
    set (st1 := handleMouseReport_step timestamp reportID st o) in *.
    assert (Hrest : forall e, In (ObjElement e) l -> touches e = true ->
                              getUsage e - kHIDUsage_Button_1 <> i)
      by (intros e He; apply Hfree; now right).
    destruct (buttons st1) as [b1 |] eqn:Hb1.
    2:{ rewrite (loop_buttons_None timestamp reportID l st1 Hb1) in Hb'.
        discriminate Hb'. }
    rewrite (IH st1 b1 b' i Hb1 Hb' Hi Hrest).
    unfold st1 in Hb1. rewrite step_buttons in Hb1.
    destruct o as [e |]; [ | congruence].
    destruct (touches e) eqn:Ht; [ | congruence].
    rewrite Hb in Hb1.
    apply andb_true_iff in Ht as Ht'. destruct Ht' as [_ Hrange].
    destruct (button_index e Hrange) as [Hidx _].
    rewrite Hidx in Hb1.
    destruct (setButtonState_defined _ _ _ _ Hb1) as [Hin _].
    destruct (setButtonState_bits b _ (Int.to_uint32 (getValue e)) Hin)
      as (b1' & Hset & Hbits).
    rewrite Hset in Hb1. injection Hb1 as <-.
    rewrite (Hbits i Hi).
    assert (Hne : getUsage e - kHIDUsage_Button_1 <> i)
      by (apply Hfree; [now left | exact Ht]).
    apply not_eq_sym, Z.eqb_neq in Hne. now rewrite Hne.
Qed.

(** When every processed button channel indexes a bit of the mask, the loop
  ends with a defined mask. *)
Lemma loop_buttons_defined (l : list OSObject) :
forall (st : ReportState) (b : Z),
  buttons st = Some b ->
  (forall e, In (ObjElement e) l -> touches e = true ->
             getUsage e - kHIDUsage_Button_1 < 32) ->
  exists b', buttons (loop l st) = Some b'.
Proof.
induction l as [| o l IH]; intros st b Hb Hsmall.
- now exists b.
- rewrite loop_cons.
  assert (Hstep : exists b1,
             buttons (handleMouseReport_step timestamp reportID st o) = Some b1).
  { rewrite step_buttons. destruct o as [e |]; [ | now exists b].
    destruct (touches e) eqn:Ht; [ | now exists b].
    apply andb_true_iff in Ht as Ht'. destruct Ht' as [_ Hrange].
    destruct (button_index e Hrange) as [Hidx Hbound].
    assert (Hin : 0 <= getUsage e - kHIDUsage_Button_1 < 32)
      by (split; [lia | apply Hsmall; [now left | exact Ht]]).
    rewrite Hb, Hidx.
    destruct (setButtonState_bits b _ (Int.to_uint32 (getValue e)) Hin)
      as (b1 & Hset & _).
    now exists b1. }
  destruct Hstep as (b1 & Hb1).
  apply (IH _ b1 Hb1). intros e He. apply Hsmall. now right.
Qed.

End ButtonFrame.

(** C1. A classified channel whose report ID differs from the packet's, or
    whose timestamp differs from the packet's, is skipped: the events
    dispatched (deltaX, deltaY, scrollVertical, button mask) and the button
    state stored are those of the same packet handled without that channel,
    whatever the channel's usage and value and whether or not the other check
    passes. *)
Theorem handleMouseReport_identity_and_time_filter :
  forall (iv : IVars) (timestamp reportID : Z)
         (l1 l2 : list OSObject) (e : IOHIDElement),
    mouseElements iv = l1 ++ ObjElement e :: l2 ->
    getReportID e <> reportID \/ getTimeStamp e <> timestamp ->
    let without := mkIVars (l1 ++ l2) (buttonState iv) in
    snd (handleMouseReport iv timestamp reportID) =
      snd (handleMouseReport without timestamp reportID) /\
    buttonState (fst (handleMouseReport iv timestamp reportID)) =
      buttonState (fst (handleMouseReport without timestamp reportID)).
Proof.
  intros iv timestamp reportID l1 l2 e Hset Hfail without.
  apply matchesReport_false in Hfail.
  unfold handleMouseReport, without. simpl. rewrite Hset.
  rewrite loop_remove by (intros st; now apply step_skip).
  split; reflexivity.
Qed.

(** C5. Every call of [handleMouseReport] dispatches exactly two events, a
    relative pointer event followed by a relative scroll wheel event, both
    with the no-acceleration option and [accelerate = false], the scroll
    event with zero in its two other axes.  The pointer event carries the
    button state stored by the call.  When no classified channel matches the
    packet's report ID and timestamp, the three deltas are zero and the
    button mask is the one stored before the call. *)
Theorem handleMouseReport_dispatches_both_events :
  forall (iv : IVars) (timestamp reportID : Z),
  exists (dx dy sv : Z) (mask : option Z),
    snd (handleMouseReport iv timestamp reportID) =
      [ RelativePointerEvent timestamp dx dy mask
          kIOHIDPointerEventOptionsNoAcceleration false;
        RelativeScrollWheelEvent timestamp sv 0 0
          kIOHIDScrollEventOptionsNoAcceleration false ] /\
    buttonState (fst (handleMouseReport iv timestamp reportID)) = mask /\
    ((forall e, In (ObjElement e) (mouseElements iv) ->
                matchesReport timestamp reportID e = false) ->
     dx = 0 /\ dy = 0 /\ sv = 0 /\ mask = buttonState iv).
Proof.
  intros iv timestamp reportID.
  set (st := handleMouseReport_loop timestamp reportID (mouseElements iv)
                                    (mkReport 0 0 0 (buttonState iv))).
  exists (dX st), (dY st), (scrollVert st), (buttons st).
  split; [reflexivity | split; [reflexivity | ]].
  intros Hnone. unfold st. rewrite loop_no_match by exact Hnone.
  simpl. auto.
Qed.

(** C9. The interpreter has a usage gate of its own.  A button-page channel
    whose usage lies outside [kHIDUsage_Button_1 .. kHIDUsage_Button_255]
    passes classification (when it is not a collection and its usage is not
    0), yet the loop body leaves every variable unchanged for it, so the
    packet is handled as if the channel were absent, also when its report ID
    and timestamp match. *)
Theorem handleMouseReport_button_usage_gate :
  forall (iv : IVars) (timestamp reportID : Z)
         (l1 l2 : list OSObject) (e : IOHIDElement),
    mouseElements iv = l1 ++ ObjElement e :: l2 ->
    getUsagePage e = kHIDPage_Button ->
    getUsage e < kHIDUsage_Button_1 \/ kHIDUsage_Button_255 < getUsage e ->
    let without := mkIVars (l1 ++ l2) (buttonState iv) in
    (getType e <> kIOHIDElementTypeCollection -> getUsage e <> 0 ->
     isMouseElement e = true) /\
    (forall st, handleMouseReport_step timestamp reportID st (ObjElement e) = st) /\
    snd (handleMouseReport iv timestamp reportID) =
      snd (handleMouseReport without timestamp reportID) /\
    buttonState (fst (handleMouseReport iv timestamp reportID)) =
      buttonState (fst (handleMouseReport without timestamp reportID)).
Proof.
  intros iv timestamp reportID l1 l2 e Hset Hpage Hout without.
  assert (Hstep : forall st,
             handleMouseReport_step timestamp reportID st (ObjElement e) = st).
  { intros st. destruct (matchesReport timestamp reportID e) eqn:Hm.
    - rewrite step_match by exact Hm. rewrite Hpage. simpl.
      replace (inButtonRange e) with false; [reflexivity | ].
      symmetry. unfold inButtonRange. apply andb_false_iff.
      destruct Hout as [H | H]; [left; apply Z.leb_gt | right; apply Z.leb_gt];
        exact H.
    - now apply step_skip. }
  split; [ | split; [exact Hstep | ]].
  - intros Hty Hus. apply isMouseElement_spec. auto.
  - unfold handleMouseReport, without. simpl. rewrite Hset.
    rewrite loop_remove by exact Hstep. split; reflexivity.
Qed.

(** C2. For a channel that passes both guards the loop body assigns
    [dX = value << 15] on the X axis, [dY = value << 15] on the Y axis and
    [scrollVert = IOFixedMultiply(value << 16, -3 << 16)] on the wheel, and
    leaves the other variables as they are.  A packet whose only channel is
    an X axis with sample 4 is dispatched with deltaX = 131072; one whose
    only channel is a wheel with sample 2 is dispatched with a vertical
    scroll of -393216, the product of 131072 and -196608 in 16.16. *)
Theorem handleMouseReport_fixed_point_scaling :
  (forall (timestamp reportID : Z) (st : ReportState) (e : IOHIDElement),
     matchesReport timestamp reportID e = true ->
     getUsagePage e = kHIDPage_GenericDesktop ->
     (getUsage e = kHIDUsage_GD_X ->
      handleMouseReport_step timestamp reportID st (ObjElement e) =
      mkReport (Int.shl (getValue e) 15) (dY st) (scrollVert st) (buttons st)) /\
     (getUsage e = kHIDUsage_GD_Y ->
      handleMouseReport_step timestamp reportID st (ObjElement e) =
      mkReport (dX st) (Int.shl (getValue e) 15) (scrollVert st) (buttons st)) /\
     (getUsage e = kHIDUsage_GD_Wheel ->
      handleMouseReport_step timestamp reportID st (ObjElement e) =
      mkReport (dX st) (dY st)
               (IOFixedMultiply (Int.shl (getValue e) 16) (Int.shl (-3) 16))
               (buttons st))) /\
  (forall (timestamp reportID : Z) (mask : option Z),
     snd (handleMouseReport
            (mkIVars [ObjElement (xChannel reportID timestamp 4)] mask)
            timestamp reportID) =
     [ RelativePointerEvent timestamp 131072 0 mask
         kIOHIDPointerEventOptionsNoAcceleration false;
       RelativeScrollWheelEvent timestamp 0 0 0
         kIOHIDScrollEventOptionsNoAcceleration false ]) /\
  (forall (timestamp reportID : Z) (mask : option Z),
     snd (handleMouseReport
            (mkIVars [ObjElement (wheelChannel reportID timestamp 2)] mask)
            timestamp reportID) =
     [ RelativePointerEvent timestamp 0 0 mask
         kIOHIDPointerEventOptionsNoAcceleration false;
       RelativeScrollWheelEvent timestamp (-393216) 0 0
         kIOHIDScrollEventOptionsNoAcceleration false ]) /\
  Int.shl 4 15 = 131072 /\
  Int.shl 2 16 = 131072 /\
  Int.shl (-3) 16 = -196608 /\
  IOFixedMultiply 131072 (-196608) = -393216.
Proof.
  split; [ | split; [ | split; [ | repeat split; reflexivity]]].
  - intros timestamp reportID st e Hm Hpage.
    rewrite step_match by exact Hm. rewrite Hpage.
    repeat split; intros ->; reflexivity.
  - intros timestamp reportID mask.
    unfold handleMouseReport, handleMouseReport_loop.
    cbn [mouseElements fold_left snd].
    rewrite step_match by (apply matchesReport_true; split; reflexivity).
    reflexivity.
  - intros timestamp reportID mask.
    unfold handleMouseReport, handleMouseReport_loop.
    cbn [mouseElements fold_left snd].
    rewrite step_match by (apply matchesReport_true; split; reflexivity).
    reflexivity.
Qed.

(** C10. Within one packet an axis delta is assigned, not accumulated.  When
    several classified channels of the same axis match the packet, the delta
    dispatched for that axis is the scaled value of the last of them in array
    order, whatever the values of the earlier ones. *)
Theorem handleMouseReport_last_axis_channel_wins :
  forall (iv : IVars) (timestamp reportID : Z)
         (l1 l2 : list OSObject) (e : IOHIDElement),
    mouseElements iv = l1 ++ ObjElement e :: l2 ->
    matchesReport timestamp reportID e = true ->
    getUsagePage e = kHIDPage_GenericDesktop ->
    (forall e', In (ObjElement e') l2 ->
                matchesReport timestamp reportID e' = true ->
                getUsagePage e' = kHIDPage_GenericDesktop ->
                getUsage e' <> getUsage e) ->
    exists (dx dy sv : Z) (mask : option Z),
      snd (handleMouseReport iv timestamp reportID) =
        [ RelativePointerEvent timestamp dx dy mask
            kIOHIDPointerEventOptionsNoAcceleration false;
          RelativeScrollWheelEvent timestamp sv 0 0
            kIOHIDScrollEventOptionsNoAcceleration false ] /\
      (getUsage e = kHIDUsage_GD_X -> dx = Int.shl (getValue e) 15) /\
      (getUsage e = kHIDUsage_GD_Y -> dy = Int.shl (getValue e) 15) /\
      (getUsage e = kHIDUsage_GD_Wheel ->
       sv = IOFixedMultiply (Int.shl (getValue e) 16) (Int.shl (-3) 16)).
Proof.
  intros iv timestamp reportID l1 l2 e Hset Hm Hpage Hlast.
  set (st := handleMouseReport_loop timestamp reportID (mouseElements iv)
                                    (mkReport 0 0 0 (buttonState iv))).
  exists (dX st), (dY st), (scrollVert st), (buttons st).
  split; [reflexivity | ].
  assert (Hlater : forall usage, getUsage e = usage ->
            forall e', In (ObjElement e') l2 ->
              matchesReport timestamp reportID e' && isAxisChannel usage e' = false).
  { intros usage Hus e' He'.
    destruct (matchesReport timestamp reportID e') eqn:Hm'; [ | reflexivity].
    unfold isAxisChannel. simpl.
    destruct (Z.eqb_spec (getUsagePage e') kHIDPage_GenericDesktop) as [Hp | Hp];
      [ | reflexivity].
    simpl. apply Z.eqb_neq. rewrite <- Hus. now apply Hlast. }
  assert (Hhit : forall usage, getUsage e = usage ->
            matchesReport timestamp reportID e && isAxisChannel usage e = true).
  { intros usage Hus. unfold isAxisChannel.
    rewrite Hm, Hpage, Hus, !Z.eqb_refl. reflexivity. }
  unfold st. rewrite Hset.
  destruct (loop_last_axis timestamp reportID l1 l2 e
                           (mkReport 0 0 0 (buttonState iv))) as (Hx & Hy & Hw).
  repeat split; intros Hus.
  - apply Hx; [now apply Hhit | now apply Hlater].
  - apply Hy; [now apply Hhit | now apply Hlater].
  - apply Hw; [now apply Hhit | now apply Hlater].
Qed.

(** X23. Inside the width of the mask the button state is written only at
    the bits of the button channels the packet carries.  When the matching
    button channels inside the usage gate all index a bit of the 32-bit mask,
    the call stores a defined mask in which every bit that is not the index
    of one of them has the value it had before the call.  A packet in which
    no button channel matches leaves the stored mask exactly as it was; so
    after a packet that presses the button of index [index] and a second
    packet without button channels, bit [index] is still set (for button 3
    as for any other button of the mask). *)
Theorem buttonState_frame_and_persistence :
  (forall (iv : IVars) (timestamp reportID : Z) (b : Z),
     buttonState iv = Some b ->
     (forall e, In (ObjElement e) (mouseElements iv) ->
                matchesReport timestamp reportID e = true ->
                isButtonChannel e = true ->
                inButtonRange e = true ->
                getUsage e - kHIDUsage_Button_1 < 32) ->
     exists b',
       buttonState (fst (handleMouseReport iv timestamp reportID)) = Some b' /\
       forall i, 0 <= i < 32 ->
         (forall e, In (ObjElement e) (mouseElements iv) ->
                    matchesReport timestamp reportID e = true ->
                    isButtonChannel e = true ->
                    inButtonRange e = true ->
                    getUsage e - kHIDUsage_Button_1 <> i) ->
         Z.testbit b' i = Z.testbit b i) /\
  (forall (iv : IVars) (elements : list OSObject) (timestamp reportID : Z),
     (forall e, In (ObjElement e) elements ->
                isButtonChannel e = true ->
                matchesReport timestamp reportID e = false) ->
     buttonState (fst (handleMouseReport (refreshElements iv elements)
                                         timestamp reportID)) =
     buttonState iv) /\
  (forall (b0 index value : Z) (timestamp1 reportID1 timestamp2 reportID2 : Z)
          (elements2 : list OSObject),
     0 <= index < 32 ->
     Int.to_uint32 value <> 0 ->
     (forall e, In (ObjElement e) elements2 ->
                isButtonChannel e = true ->
                matchesReport timestamp2 reportID2 e = false) ->
     let packet1 :=
       mkIVars [ObjElement (buttonChannel (kHIDUsage_Button_1 + index)
                                          reportID1 timestamp1 value)]
               (Some b0) in
     let iv1 := fst (handleMouseReport packet1 timestamp1 reportID1) in
     let iv2 := fst (handleMouseReport (refreshElements iv1 elements2)
                                       timestamp2 reportID2) in
     exists b2, buttonState iv2 = Some b2 /\ Z.testbit b2 index = true).
Proof.
  assert (Hpersist :
    forall (iv : IVars) (elements : list OSObject) (timestamp reportID : Z),
      (forall e, In (ObjElement e) elements ->
                 isButtonChannel e = true ->
                 matchesReport timestamp reportID e = false) ->
      buttonState (fst (handleMouseReport (refreshElements iv elements)
                                          timestamp reportID)) =
      buttonState iv).
  { intros iv elements timestamp reportID Hnone.
    unfold handleMouseReport, refreshElements. simpl.
    rewrite loop_buttons_untouched; [reflexivity | ].
    intros e He. destruct (isButtonChannel e) eqn:Hb.
    - rewrite (Hnone e He Hb). reflexivity.
    - now rewrite andb_false_r. }
  split; [ | split; [exact Hpersist | ]].
  - intros iv timestamp reportID b Hb Hsmall.
    destruct (loop_buttons_defined timestamp reportID (mouseElements iv)
                (mkReport 0 0 0 (buttonState iv)) b Hb) as (b' & Hb').
    { intros e He Ht.
      apply andb_true_iff in Ht as [Ht Hr].
      apply andb_true_iff in Ht as [Hm Hbt].
      now apply Hsmall. }
    exists b'. split; [exact Hb' | ].
    intros i Hi Hfree.
    apply (loop_buttons_frame timestamp reportID (mouseElements iv)
             (mkReport 0 0 0 (buttonState iv)) b b' i Hb Hb' Hi).
    intros e He Ht.
    apply andb_true_iff in Ht as [Ht Hr].
    apply andb_true_iff in Ht as [Hm Hbt].
    now apply Hfree.
  - intros b0 index value timestamp1 reportID1 timestamp2 reportID2 elements2
           Hi Hv Hnone packet1 iv1 iv2.
    unfold iv2. rewrite Hpersist by exact Hnone.
    unfold iv1, packet1, handleMouseReport, handleMouseReport_loop.
    cbn [mouseElements fold_left fst buttonState].
    rewrite step_buttons.
    set (e := buttonChannel (kHIDUsage_Button_1 + index) reportID1 timestamp1 value).
    assert (Hm : matchesReport timestamp1 reportID1 e = true)
      by (apply matchesReport_true; split; reflexivity).
    assert (Hr : inButtonRange e = true).
    { unfold inButtonRange, e, buttonChannel. cbn [getUsage].
      unfold kHIDUsage_Button_1, kHIDUsage_Button_255.
      apply andb_true_iff. split; apply Z.leb_le; lia. }
    assert (Hbt : isButtonChannel e = true) by reflexivity.
    rewrite Hm, Hbt, Hr. subst e.
    cbn [andb buttons buttonChannel getUsage getValue].
    replace (kHIDUsage_Button_1 + index - kHIDUsage_Button_1) with index by lia.
    replace (Int.to_uint32 index) with index
      by (unfold Int.to_uint32; symmetry; apply Z.mod_small; lia).
    destruct (setButtonState_bits b0 index (Int.to_uint32 value) Hi)
      as (b1 & Hset & Hbits).
    exists b1. split; [exact Hset | ].
    rewrite (Hbits index Hi), Z.eqb_refl.
    apply Z.eqb_neq in Hv. now rewrite Hv.
Qed.

(** C8. No bound of the mask guards the button dispatch.  Every button
    channel with a usage from the 33rd to the 255th button is classified and
    passes the interpreter's usage gate; its index, usage minus the first
    button, is 32 or more; [1 << index] then has no value, [setButtonState]
    yields an undefined mask, and a packet that carries the channel leaves
    the stored button state undefined. *)
Theorem setButtonState_shift_past_mask_width :
  forall (e : IOHIDElement),
    getUsagePage e = kHIDPage_Button ->
    getType e <> kIOHIDElementTypeCollection ->
    33 <= getUsage e <= 255 ->
    let index := Int.to_uint32 (getUsage e - kHIDUsage_Button_1) in
    isMouseElement e = true /\
    inButtonRange e = true /\
    index = getUsage e - kHIDUsage_Button_1 /\
    32 <= index /\
    Int.shl_checked 1 index = None /\
    (forall (state : option Z) (value : Z),
       setButtonState state index value = None) /\
    (forall (iv : IVars) (timestamp reportID : Z),
       In (ObjElement e) (mouseElements iv) ->
       matchesReport timestamp reportID e = true ->
       buttonState (fst (handleMouseReport iv timestamp reportID)) = None).
Proof.
  intros e Hpage Hty Hus index.
  assert (Hr : inButtonRange e = true).
  { unfold inButtonRange, kHIDUsage_Button_1, kHIDUsage_Button_255.
    apply andb_true_iff. split; apply Z.leb_le; lia. }
  destruct (button_index e Hr) as [Hidx _].
  assert (Hge : 32 <= index).
  { unfold index. rewrite Hidx. unfold kHIDUsage_Button_1. lia. }
  assert (Hset : forall (state : option Z) (value : Z),
             setButtonState state index value = None).
  { intros state value. unfold setButtonState.
    now rewrite (mask_out_of_range index Hge). }
  split; [ | split; [exact Hr | split; [exact Hidx | split; [exact Hge |
    split; [now apply mask_out_of_range | split; [exact Hset | ]]]]]].
  - apply isMouseElement_spec.
    split; [exact Hty | split; [lia | now left]].
  - intros iv timestamp reportID Hin Hm.
    apply in_split in Hin as (l1 & l2 & Hsplit).
    unfold handleMouseReport. simpl. rewrite Hsplit, loop_app, loop_cons.
    apply loop_buttons_None. rewrite step_buttons.
    unfold isButtonChannel. rewrite Hm, Hr, Hpage, Z.eqb_refl. simpl.
    apply Hset.
Qed.

(** C6. The button mask is meant to change only at the bits of the button
    channels the packet carries, and it does not for a button past the width
    of the mask.  With button 1 pressed (mask 1), take a packet whose only
    channel releases button 33.  The channel is classified, matches the
    packet and passes the usage gate; its index is 32, so bit 0 is not its
    bit.  Yet the call does not store a mask that still has bit 0 set:
    [1 << 32] has no value, and the state stored and dispatched is
    undefined. *)
Theorem buttonState_frame_broken_past_mask_width :
  let e := buttonChannel 33 1 10 0 in
  let iv := mkIVars [ObjElement e] (Some 1) in
  isMouseElement e = true /\
  matchesReport 10 1 e = true /\
  inButtonRange e = true /\
  Int.to_uint32 (getUsage e - kHIDUsage_Button_1) = 32 /\
  Z.testbit 1 0 = true /\
  buttonState (fst (handleMouseReport iv 10 1)) = None /\
  pointerMask (snd (handleMouseReport iv 10 1)) = None /\
  ~ (exists mask,
       buttonState (fst (handleMouseReport iv 10 1)) = Some mask /\
       Z.testbit mask 0 = Z.testbit 1 0).
Proof.
  intros e iv.
  assert (Hnone : buttonState (fst (handleMouseReport iv 10 1)) = None)
    by reflexivity.
  split; [reflexivity | split; [reflexivity | split; [reflexivity | ]]].
  split; [reflexivity | split; [reflexivity | split; [exact Hnone | ]]].
  split; [reflexivity | ].
  intros (mask & Hsome & _). rewrite Hnone in Hsome. discriminate Hsome.
Qed.

(* ------------------------------------------------------------------ *)
(** ** The properties on concrete devices and packets *)

(** The wheel of [mouseDevice] is classified, as the acceptance policy says. *)
Lemma parseMouseElements_acceptance_mouse :
  let e := wheelChannel 1 0 0 in
  let classified := mouseElements (fst (parseMouseElements freshIVars mouseDevice)) in
  (getUsagePage e = kHIDPage_Button -> In (ObjElement e) classified) /\
  (getUsagePage e = kHIDPage_GenericDesktop ->
     (In (ObjElement e) classified <->
      getUsage e = kHIDUsage_GD_X \/ getUsage e = kHIDUsage_GD_Y \/
      getUsage e = kHIDUsage_GD_Wheel)) /\
  (getUsagePage e <> kHIDPage_GenericDesktop ->
   getUsagePage e <> kHIDPage_Button ->
   ~ In (ObjElement e) classified).
Proof.
  apply (parseMouseElements_acceptance freshIVars mouseDevice (wheelChannel 1 0 0)).
  - reflexivity.
  - simpl. tauto.
  - simpl. discriminate.
  - vm_compute. discriminate.
Defined.

(** The X axis is in the classified set of [mouseDevice]; it is not a
    collection and its usage is not 0. *)
Lemma parseMouseElements_purity_mouse :
  exists e, ObjElement (xChannel 1 0 0) = ObjElement e /\
            In (ObjElement (xChannel 1 0 0)) mouseDevice /\
            getType e <> kIOHIDElementTypeCollection /\ getUsage e <> 0.
Proof.
  apply (parseMouseElements_purity freshIVars mouseDevice (ObjElement (xChannel 1 0 0))).
  - reflexivity.
  - simpl. left. reflexivity.
Defined.

(** Attaching to [keyboardDevice] fails with [kIOReturnInvalid] although the
    host answers every call with success. *)
Lemma attach_fails_on_keyboard :
  snd (parseMouseElements freshIVars keyboardDevice) = false /\
  fst (fst (Start_Impl (hostAllOk keyboardDevice) freshIVars)) = kIOReturnInvalid /\
  ~ In CallRegisterService (snd (Start_Impl (hostAllOk keyboardDevice) freshIVars)).
Proof.
  pose proof (proj2 (parseMouseElements_found_iff_and_attach_fails
                       freshIVars keyboardDevice)
                    (hostAllOk keyboardDevice) eq_refl eq_refl) as H.
  split; [reflexivity | ].
  change (Start_Impl (hostAllOk keyboardDevice) freshIVars)
    with (kIOReturnInvalid, freshIVars,
          [CallGetProvider; CallSuperStart; CallCreateActionReportAvailable;
           CallInterfaceOpen; CallGetElements; CallStop]) in *.
  destruct H as (_ & Hreg & _ & Hret).
  split; [ | exact Hreg].
  exact (proj1 (Hret eq_refl eq_refl eq_refl eq_refl)).
Defined.

(** A Y axis of report 2 inside a packet of report 1 changes nothing, though
    its timestamp is the packet's. *)
Lemma identity_filter_on_packet :
  let x := ObjElement (xChannel 1 10 4) in
  let y := ObjElement (yChannel 2 10 9) in
  let b := ObjElement (buttonChannel 1 1 7 1) in
  snd (handleMouseReport (mkIVars [x; y; b] (Some 0)) 10 1) =
    snd (handleMouseReport (mkIVars [x; b] (Some 0)) 10 1) /\
  buttonState (fst (handleMouseReport (mkIVars [x; y; b] (Some 0)) 10 1)) =
    buttonState (fst (handleMouseReport (mkIVars [x; b] (Some 0)) 10 1)).
Proof.
  apply (handleMouseReport_identity_and_time_filter
           (mkIVars [ObjElement (xChannel 1 10 4); ObjElement (yChannel 2 10 9);
                     ObjElement (buttonChannel 1 1 7 1)] (Some 0))
           10 1
           [ObjElement (xChannel 1 10 4)] [ObjElement (buttonChannel 1 1 7 1)]
           (yChannel 2 10 9)).
  - reflexivity.
  - left. simpl. lia.
Defined.

(** The loop body on an X sample of 4. *)
Lemma scaling_of_x_sample :
  handleMouseReport_step 10 1 (mkReport 0 0 0 (Some 0))
                         (ObjElement (xChannel 1 10 4)) =
  mkReport 131072 0 0 (Some 0).
Proof.
  destruct (proj1 handleMouseReport_fixed_point_scaling
                  10 1 (mkReport 0 0 0 (Some 0)) (xChannel 1 10 4)
                  eq_refl eq_refl) as (Hx & _ & _).
  exact (Hx eq_refl).
Defined.

(** A packet that refreshed none of the channels: zero deltas and the mask 5
    that was stored. *)
Lemma stale_packet_events :
  snd (handleMouseReport
         (mkIVars [ObjElement (xChannel 1 10 4); ObjElement (buttonChannel 2 1 10 1)]
                  (Some 5))
         20 1) =
  [ RelativePointerEvent 20 0 0 (Some 5)
      kIOHIDPointerEventOptionsNoAcceleration false;
    RelativeScrollWheelEvent 20 0 0 0
      kIOHIDScrollEventOptionsNoAcceleration false ].
Proof.
  destruct (handleMouseReport_dispatches_both_events
              (mkIVars [ObjElement (xChannel 1 10 4);
                        ObjElement (buttonChannel 2 1 10 1)] (Some 5)) 20 1)
    as (dx & dy & sv & mask & Hev & _ & Hzero).
  destruct Hzero as (Hdx & Hdy & Hsv & Hmask).
  - intros e [H | [H | []]]; injection H as <-; reflexivity.
  - rewrite Hev, Hdx, Hdy, Hsv, Hmask. reflexivity.
Defined.

(** Bit 3 through three packets: a press of the first button leaves it as it
    was; a packet of axis data alone leaves the whole mask; and a press of
    the button of index 3 is still recorded after a packet of axis data. *)
Lemma button_three_persists :
  (exists b',
     buttonState
       (fst (handleMouseReport
               (mkIVars [ObjElement (buttonChannel 1 1 10 1)] (Some 8)) 10 1)) =
     Some b' /\
     Z.testbit b' 3 = Z.testbit 8 3) /\
  buttonState
    (fst (handleMouseReport
            (refreshElements (mkIVars [] (Some 8))
               [ObjElement (buttonChannel 4 1 10 1); ObjElement (xChannel 1 20 7)])
            20 1)) = Some 8 /\
  (exists b2,
     buttonState
       (fst (handleMouseReport
               (refreshElements
                  (fst (handleMouseReport
                          (mkIVars [ObjElement (buttonChannel (kHIDUsage_Button_1 + 3) 1 10 1)]
                                   (Some 0))
                          10 1))
                  [ObjElement (buttonChannel 4 1 10 1); ObjElement (xChannel 1 20 7)])
               20 1)) = Some b2 /\
     Z.testbit b2 3 = true).
Proof.
  destruct buttonState_frame_and_persistence as (Hframe & Hpersist & Htwo).
  split; [ | split].
  - destruct (Hframe (mkIVars [ObjElement (buttonChannel 1 1 10 1)] (Some 8))
                     10 1 8) as (b' & Hb' & Hbits).
    + reflexivity.
    + intros e [H | []] _ _ _. injection H as <-. vm_compute. reflexivity.
    + exists b'. split; [exact Hb' | ].
      apply Hbits; [lia | ].
      intros e [H | []] _ _ _. injection H as <-. vm_compute. discriminate.
  - apply (Hpersist (mkIVars [] (Some 8))
             [ObjElement (buttonChannel 4 1 10 1); ObjElement (xChannel 1 20 7)]
             20 1).
    intros e [H | [H | []]] Hb; injection H as <-.
    + reflexivity.
    + discriminate Hb.
  - apply (Htwo 0 3 1 10 1 20 1
             [ObjElement (buttonChannel 4 1 10 1); ObjElement (xChannel 1 20 7)]).
    + lia.
    + vm_compute. discriminate.
    + intros e [H | [H | []]] Hb; injection H as <-.
      * reflexivity.
      * discriminate Hb.
Defined.

(** The 33rd button: classified, inside the usage gate, index 32, and the
    packet that presses it leaves the button state undefined. *)
Lemma button_33_shifts_past_mask :
  let e := buttonChannel 33 1 10 1 in
  isMouseElement e = true /\
  inButtonRange e = true /\
  Int.to_uint32 (getUsage e - kHIDUsage_Button_1) = 32 /\
  Int.shl_checked 1 32 = None /\
  setButtonState (Some 0) 32 1 = None /\
  buttonState (fst (handleMouseReport (mkIVars [ObjElement e] (Some 0)) 10 1)) = None.
Proof.
  destruct (setButtonState_shift_past_mask_width (buttonChannel 33 1 10 1))
    as (Hcl & Hgate & Hidx & Hge & Hshift & Hset & Hrun).
  - reflexivity.
  - simpl. discriminate.
  - simpl. lia.
  - intros e.
    split; [exact Hcl | split; [exact Hgate | split; [reflexivity | ]]].
    split; [exact Hshift | split; [exact (Hset (Some 0) 1) | ]].
    apply (Hrun (mkIVars [ObjElement (buttonChannel 33 1 10 1)] (Some 0)) 10 1).
    + simpl. left. reflexivity.
    + reflexivity.
Defined.

(** A button channel of usage 256 is classified but never reaches
    [setButtonState]. *)
Lemma button_256_is_gated :
  let e := buttonChannel 256 1 10 1 in
  let x := ObjElement (xChannel 1 10 4) in
  isMouseElement e = true /\
  snd (handleMouseReport (mkIVars [x; ObjElement e] (Some 0)) 10 1) =
    snd (handleMouseReport (mkIVars [x] (Some 0)) 10 1) /\
  buttonState (fst (handleMouseReport (mkIVars [x; ObjElement e] (Some 0)) 10 1)) =
    Some 0.
Proof.
  destruct (handleMouseReport_button_usage_gate
              (mkIVars [ObjElement (xChannel 1 10 4);
                        ObjElement (buttonChannel 256 1 10 1)] (Some 0))
              10 1
              [ObjElement (xChannel 1 10 4)] [] (buttonChannel 256 1 10 1))
    as (Hcl & _ & Hev & Hst).
  - reflexivity.
  - reflexivity.
  - right. vm_compute. reflexivity.
  - intros e x.
    split; [apply Hcl; simpl; discriminate | split; [exact Hev | ]].
    unfold e, x. rewrite Hst. reflexivity.
Defined.

(** Two X channels in one packet, samples 1 and 2: the delta is that of the
    second, 2 << 15, not the sum of the two. *)
Lemma second_x_channel_wins :
  exists (dy sv : Z) (mask : option Z),
    snd (handleMouseReport
           (mkIVars [ObjElement (xChannel 1 10 1); ObjElement (xChannel 1 10 2)]
                    (Some 0))
           10 1) =
    [ RelativePointerEvent 10 65536 dy mask
        kIOHIDPointerEventOptionsNoAcceleration false;
      RelativeScrollWheelEvent 10 sv 0 0
        kIOHIDScrollEventOptionsNoAcceleration false ] /\
    65536 = Int.shl 2 15 /\
    65536 <> Int.shl 1 15 + Int.shl 2 15.
Proof.
  destruct (handleMouseReport_last_axis_channel_wins
              (mkIVars [ObjElement (xChannel 1 10 1); ObjElement (xChannel 1 10 2)]
                       (Some 0))
              10 1
              [ObjElement (xChannel 1 10 1)] [] (xChannel 1 10 2))
    as (dx & dy & sv & mask & Hev & Hx & _).
  - reflexivity.
  - reflexivity.
  - reflexivity.
  - intros e' [].
  - exists dy, sv, mask. rewrite Hev, (Hx eq_refl).
    split; [reflexivity | split; [reflexivity | ]].
    vm_compute. discriminate.
Defined.

(* ------------------------------------------------------------------ *)
(** ** Further properties of the classifier and of the attach sequence *)

(** X1. [parseMouseElements] appends to the stored array exactly the
    accepted elements of the device, in device order: earlier entries stay
    in place, objects that are not elements are passed over, the button
    state is not touched, and the flag returned tells whether this call
    accepted anything, whatever the array held before. *)
Theorem parseMouseElements_appends_accepted_in_order :
  forall (iv : IVars) (deviceElements : list OSObject),
    parseMouseElements iv deviceElements =
    (mkIVars (mouseElements iv ++
                map ObjElement (filter isMouseElement (elementsOf deviceElements)))
             (buttonState iv),
     existsb isMouseElement (elementsOf deviceElements)).
Proof.
  intros iv deviceElements. unfold parseMouseElements.
  rewrite parseMouseElements_fold. reflexivity.
Qed.

(** X2. Classifying a device in two parts is classifying the whole: the
    second call continues the array of the first and the flags add up.  In
    particular a second call on the same elements stores them a second
    time. *)
Theorem parseMouseElements_app :
  forall (iv : IVars) (part1 part2 : list OSObject),
    let r1 := parseMouseElements iv part1 in
    let r2 := parseMouseElements (fst r1) part2 in
    parseMouseElements iv (part1 ++ part2) = (fst r2, snd r1 || snd r2).
Proof.
  intros iv part1 part2 r1 r2. unfold r2, r1, parseMouseElements.
  rewrite fold_left_app.
  destruct (fold_left parseMouseElements_step part1 (mouseElements iv, false))
    as [set1 found1] eqn:H1.
  cbn [fst snd mouseElements buttonState].
  rewrite !parseMouseElements_fold. cbn [fst snd]. reflexivity.
Qed.

(** X3. The stored array never shrinks and grows by at most one entry per
    object of the device; the flag is true exactly when it grew. *)
Theorem parseMouseElements_growth :
  forall (iv : IVars) (deviceElements : list OSObject),
    let r := parseMouseElements iv deviceElements in
    (length (mouseElements iv) <= length (mouseElements (fst r)))%nat /\
    (length (mouseElements (fst r)) <=
       length (mouseElements iv) + length deviceElements)%nat /\
    (snd r = true <->
     (length (mouseElements iv) < length (mouseElements (fst r)))%nat).
Proof.
  intros iv deviceElements r. unfold r.
  rewrite parseMouseElements_set, parseMouseElements_found.
  rewrite length_app, length_map.
  assert (Hel : (length (elementsOf deviceElements) <= length deviceElements)%nat).
  { induction deviceElements as [| o l IH]; [apply le_n | ].
    unfold elementsOf in *. destruct o; simpl in *; lia. }
  pose proof (filter_length_le isMouseElement (elementsOf deviceElements)) as Hf.
  split; [lia | split; [lia | ]].
  clear Hel Hf.
  induction (elementsOf deviceElements) as [| e l IH]; simpl.
  - split; [discriminate | lia].
  - destruct (isMouseElement e); simpl.
    + split; [lia | reflexivity].
    + exact IH.
Qed.

Lemma kIOReturnInvalid_is_error : kIOReturnInvalid <> kIOReturnSuccess.
Proof. vm_compute. discriminate. Qed.

Lemma kIOReturnError_is_error : kIOReturnError <> kIOReturnSuccess.
Proof. vm_compute. discriminate. Qed.

(** Splits a goal about [Start_Impl] along the exits of the function. *)
Ltac start_exits host iv :=
  unfold Start_Impl;
  destruct (Z.eqb_spec (superStart host) kIOReturnSuccess) as [?Hsuper | ?Hsuper];
    [ destruct (Z.eqb_spec (createActionReportAvailable host) kIOReturnSuccess)
        as [?Haction | ?Haction];
      [ destruct (providerIsInterface host) eqn:?Hcast;
        [ destruct (Z.eqb_spec (interfaceOpen host) kIOReturnSuccess)
            as [?Hopen | ?Hopen];
          [ destruct (getElements host) as [?deviceElements |] eqn:?Helements;
            [ destruct (parseMouseElements iv deviceElements)
                as [?iv' ?result] eqn:?Hparse;
              destruct result;
              [ destruct (Z.eqb_spec (registerService host) kIOReturnSuccess)
                  as [?Hregister | ?Hregister] | ] | ] | ] | ] | ] | ];
  cbn [negb fst snd app].

(** X4. [Start_Impl] returns [kIOReturnSuccess] exactly when every host call
    succeeds, the provider is a HID interface, the host hands over an element
    array and [parseMouseElements] finds a mouse element in it. *)
Theorem Start_Impl_success_iff :
  forall (host : HostAnswers) (iv : IVars),
    fst (fst (Start_Impl host iv)) = kIOReturnSuccess <->
    superStart host = kIOReturnSuccess /\
    createActionReportAvailable host = kIOReturnSuccess /\
    providerIsInterface host = true /\
    interfaceOpen host = kIOReturnSuccess /\
    (exists deviceElements,
       getElements host = Some deviceElements /\
       snd (parseMouseElements iv deviceElements) = true) /\
    registerService host = kIOReturnSuccess.
Proof.
  intros host iv.
  pose proof kIOReturnInvalid_is_error as Hinv.
  pose proof kIOReturnError_is_error as Herr.
  start_exits host iv.
  - split; [intros _ | reflexivity].
    repeat split; try assumption.
    exists deviceElements. now rewrite Hparse.
  - split; [intros H; contradiction | tauto].
  - split; [intros H; contradiction | ].
    intros (_ & _ & _ & _ & (els & Hels & Hfound) & _).
    injection Hels as <-. rewrite Hparse in Hfound. discriminate Hfound.
  - split; [intros H; contradiction | ].
    intros (_ & _ & _ & _ & (els & Hels & _) & _). discriminate Hels.
  - split; [intros H; contradiction | tauto].
  - split; [intros H; contradiction | ].
    intros (_ & _ & H & _). discriminate H.
  - split; [intros H; contradiction | tauto].
  - split; [intros H; contradiction | tauto].
Qed.


(** X6. [Start_Impl] never changes the button state and only ever extends
    the element array.  An attach that fails before [RegisterService] is
    reached leaves the element array as it was: also when it fails for want
    of mouse elements, since then nothing was appended.  (The two host
    handles of the ivars, which [Start_Impl] does set on its way, are not
    part of [IVars] and not spoken of here.) *)
Theorem Start_Impl_ivars :
  forall (host : HostAnswers) (iv : IVars),
    let iv' := snd (fst (Start_Impl host iv)) in
    let calls := snd (Start_Impl host iv) in
    buttonState iv' = buttonState iv /\
    (exists added, mouseElements iv' = mouseElements iv ++ added) /\
    (~ In CallRegisterService calls -> mouseElements iv' = mouseElements iv).
Proof.
  intros host iv.
  assert (Hsame : buttonState iv = buttonState iv /\
                  (exists added, mouseElements iv = mouseElements iv ++ added))
    by (split; [reflexivity | exists []; now rewrite app_nil_r]).
  assert (Hnot : forall l, ~ In CallRegisterService l -> ~ In CallRegisterService l)
    by auto.
  start_exits host iv;
    try (destruct Hsame as [Hb Hm]; split; [exact Hb | split; [exact Hm | reflexivity]]).
  - pose proof (parseMouseElements_set iv deviceElements) as Hset.
    rewrite Hparse in Hset. cbn [fst] in Hset.
    split; [ | split].
    + apply (f_equal fst) in Hparse. unfold parseMouseElements in Hparse.
      cbn [fst] in Hparse. now subst iv'.
    + eexists. exact Hset.
    + intros Hno. exfalso. apply Hno. simpl. tauto.
  - pose proof (parseMouseElements_set iv deviceElements) as Hset.
    rewrite Hparse in Hset. cbn [fst] in Hset.
    split; [ | split].
    + apply (f_equal fst) in Hparse. unfold parseMouseElements in Hparse.
      cbn [fst] in Hparse. now subst iv'.
    + eexists. exact Hset.
    + intros Hno. exfalso. apply Hno. simpl. tauto.
  - pose proof (parseMouseElements_set iv deviceElements) as Hset.
    pose proof (parseMouseElements_found iv deviceElements) as Hfound.
    rewrite Hparse in Hset, Hfound. cbn [fst snd] in Hset, Hfound.
    assert (Hnone : filter isMouseElement (elementsOf deviceElements) = []).
    { symmetry in Hfound. clear - Hfound.
      induction (elementsOf deviceElements) as [| e l IH]; [reflexivity | ].
      simpl in Hfound. apply orb_false_iff in Hfound as [He Hl].
      simpl. rewrite He. now apply IH. }
    rewrite Hnone, app_nil_r in Hset.
    split; [ | split].
    + apply (f_equal fst) in Hparse. unfold parseMouseElements in Hparse.
      cbn [fst] in Hparse. now subst iv'.
    + exists []. now rewrite app_nil_r.
    + intros _. exact Hset.
Qed.

(* ------------------------------------------------------------------ *)
(** ** Properties of the detach sequence *)

(** X7. [Stop_Impl] has two outcomes.  Without a report action (null ivars
    or null action) it closes the interface if there is one, calls the
    superclass [Stop] at once and returns its code.  With a report action it
    closes the interface if there is one, retains the driver and the
    provider, hands the block to [Cancel] with a count of one and returns
    [kIOReturnSuccess] whatever the superclass will answer; the branch that
    releases without cancelling is never taken. *)
Theorem Stop_Impl_outcomes :
  forall (superStop : kern_return_t) (ivars : option Handles),
    let close := match ivars with
                 | Some h => if interface h then [StopInterfaceClose] else []
                 | None => []
                 end in
    let hasAction := match ivars with
                     | Some h => reportAvailableAction h
                     | None => false
                     end in
    Stop_Impl superStop ivars =
    if hasAction
    then (kIOReturnSuccess,
          close ++ [StopRetainThis; StopRetainProvider; StopActionCancel],
          Some 1)
    else (superStop, close ++ [StopSuperStop], None).
Proof.
  intros superStop [[[|] [|]] |]; reflexivity.
Qed.

(** X8. A detach carried to its end calls the superclass [Stop] exactly
    once, closes the interface exactly when one is set, and releases the
    driver and the provider as often as it retained them. *)
Theorem Stop_completed_balanced :
  forall (superStop : kern_return_t) (ivars : option Handles),
    let calls := Stop_completed superStop ivars in
    countCall StopSuperStop calls = 1%nat /\
    countCall StopRetainThis calls = countCall StopReleaseThis calls /\
    countCall StopRetainProvider calls = countCall StopReleaseProvider calls /\
    countCall StopInterfaceClose calls =
      match ivars with
      | Some h => if interface h then 1%nat else 0%nat
      | None => 0%nat
      end.
Proof.
  intros superStop [[[|] [|]] |]; repeat split; reflexivity.
Qed.

Lemma Stop_finalize_times_pending (n : nat) :
  forall cancelCount : Z,
    Z.of_nat n < cancelCount < 2 ^ 32 ->
    Stop_finalize_times n cancelCount = (cancelCount - Z.of_nat n, []).
Proof.
  induction n as [| n IH]; intros cancelCount Hc.
  - simpl. now rewrite Z.sub_0_r.
  - cbn [Stop_finalize_times]. unfold Stop_finalize.
    replace (cancelCount <=? 1) with false by (symmetry; apply Z.leb_gt; lia).
    replace (Int.to_uint32 (cancelCount - 1)) with (cancelCount - 1)
      by (unfold Int.to_uint32; symmetry; apply Z.mod_small; lia).
    rewrite IH by lia. simpl. f_equal. lia.
Qed.

Lemma Stop_finalize_times_add (n m : nat) :
  forall cancelCount : Z,
    Stop_finalize_times (n + m) cancelCount =
    (fst (Stop_finalize_times m (fst (Stop_finalize_times n cancelCount))),
     snd (Stop_finalize_times n cancelCount) ++
     snd (Stop_finalize_times m (fst (Stop_finalize_times n cancelCount)))).
Proof.
  induction n as [| n IH]; intros cancelCount.
  - simpl. now destruct (Stop_finalize_times m cancelCount).
  - cbn [Nat.add Stop_finalize_times].
    destruct (Stop_finalize cancelCount) as [c1 calls1].
    rewrite IH.
    destruct (Stop_finalize_times n c1) as [c2 calls2]. cbn [fst snd].
    destruct (Stop_finalize_times m c2) as [c3 calls3]. cbn [fst snd].
    now rewrite app_assoc.
Qed.

(** X9. The [finalize] block counts completed cancels down: started with a
    count of [n], the first [n - 1] runs do nothing but take one off, and the
    [n]-th run calls the superclass [Stop] and releases the driver and the
    provider, leaving the count at zero. *)
Theorem Stop_finalize_last_cancel_stops :
  forall (n : nat),
    (1 <= n)%nat ->
    Z.of_nat n < 2 ^ 32 ->
    Stop_finalize_times (n - 1) (Z.of_nat n) = (1, []) /\
    Stop_finalize_times n (Z.of_nat n) =
      (0, [StopSuperStop; StopReleaseThis; StopReleaseProvider]).
Proof.
  intros n Hn Hbound.
  assert (Hbefore : Stop_finalize_times (n - 1) (Z.of_nat n) = (1, [])).
  { rewrite Stop_finalize_times_pending by lia. f_equal. lia. }
  split; [exact Hbefore | ].
  replace n with ((n - 1) + 1)%nat at 1 by lia.
  rewrite Stop_finalize_times_add, Hbefore. reflexivity.
Qed.

(* ------------------------------------------------------------------ *)
(** ** Further properties of the report interpreter *)

Section LoopStructure.

Variables timestamp reportID : Z.

Local Abbreviation step := (handleMouseReport_step timestamp reportID).
Local Abbreviation loop := (handleMouseReport_loop timestamp reportID).

Lemma ReportState_eq (s t : ReportState) :
  dX s = dX t -> dY s = dY t -> scrollVert s = scrollVert t ->
  buttons s = buttons t -> s = t.
Proof. destruct s, t; simpl; intros; subst; reflexivity. Qed.

(** The loop only looks at the objects that pass the guards. *)
Lemma loop_filter (l : list OSObject) :
  forall st, loop l st = loop (filter (passesGuards timestamp reportID) l) st.
Proof.
  induction l as [| o l IH]; intros st; [reflexivity | ].
  rewrite loop_cons. cbn [filter].
  destruct (passesGuards timestamp reportID o) eqn:Hp.
  - rewrite loop_cons. apply IH.
  - replace (step st o) with st; [apply IH | ].
    destruct o as [e |]; [ | reflexivity].
    symmetry. apply step_skip. exact Hp.
Qed.

(** The three locals evolve without regard to the button state ... *)
Lemma loop_axes_independent (l : list OSObject) :
  forall s t,
    dX s = dX t -> dY s = dY t -> scrollVert s = scrollVert t ->
    dX (loop l s) = dX (loop l t) /\
    dY (loop l s) = dY (loop l t) /\
    scrollVert (loop l s) = scrollVert (loop l t).
Proof.
  induction l as [| o l IH]; intros s t Hx Hy Hw; [now repeat split | ].
  rewrite !loop_cons. destruct o as [e |].
  - destruct (step_axes timestamp reportID s e) as (Sx & Sy & Sw).
    destruct (step_axes timestamp reportID t e) as (Tx & Ty & Tw).
    apply IH; [rewrite Sx, Tx, Hx | rewrite Sy, Ty, Hy | rewrite Sw, Tw, Hw];
      reflexivity.
  - now apply IH.
Qed.

(** ... and the button state without regard to the three locals. *)
Lemma loop_buttons_independent (l : list OSObject) :
  forall s t, buttons s = buttons t -> buttons (loop l s) = buttons (loop l t).
Proof.
  induction l as [| o l IH]; intros s t Hb; [exact Hb | ].
  rewrite !loop_cons. apply IH. rewrite !step_buttons, Hb. reflexivity.
Qed.

End LoopStructure.

(** X10. Handling a packet is handling the channels that carry its report
    ID and timestamp, in array order: dropping all other objects from the
    array at once changes neither the events nor the stored button state. *)
Theorem handleMouseReport_only_matching_channels :
  forall (iv : IVars) (timestamp reportID : Z),
    let matching := mkIVars (filter (passesGuards timestamp reportID)
                                    (mouseElements iv))
                            (buttonState iv) in
    snd (handleMouseReport iv timestamp reportID) =
      snd (handleMouseReport matching timestamp reportID) /\
    buttonState (fst (handleMouseReport iv timestamp reportID)) =
      buttonState (fst (handleMouseReport matching timestamp reportID)).
Proof.
  intros iv timestamp reportID matching.
  unfold handleMouseReport, matching. cbn [mouseElements buttonState fst snd].
  rewrite <- loop_filter. split; reflexivity.
Qed.

(** X12. Motion and buttons do not mix.  The deltas dispatched for a packet
    do not depend on the button state stored before it, and a button-page
    channel has no part in them; the stored button state does not depend on
    any generic-desktop channel. *)
Theorem handleMouseReport_axes_and_buttons_independent :
  forall (timestamp reportID : Z) (l1 l2 : list OSObject) (e : IOHIDElement)
         (mask mask' : option Z),
    let deltas iv := (pointerDeltas (snd (handleMouseReport iv timestamp reportID)),
                      scrollDelta (snd (handleMouseReport iv timestamp reportID))) in
    let stored iv := buttonState (fst (handleMouseReport iv timestamp reportID)) in
    deltas (mkIVars (l1 ++ ObjElement e :: l2) mask) =
      deltas (mkIVars (l1 ++ ObjElement e :: l2) mask') /\
    (getUsagePage e = kHIDPage_Button ->
     deltas (mkIVars (l1 ++ ObjElement e :: l2) mask) =
       deltas (mkIVars (l1 ++ l2) mask)) /\
    (getUsagePage e = kHIDPage_GenericDesktop ->
     stored (mkIVars (l1 ++ ObjElement e :: l2) mask) =
       stored (mkIVars (l1 ++ l2) mask)).
Proof.
  intros timestamp reportID l1 l2 e mask mask' deltas stored.
  unfold deltas, stored, handleMouseReport, pointerDeltas, scrollDelta.
  cbn [mouseElements buttonState fst snd].
  split; [ | split].
  - destruct (loop_axes_independent timestamp reportID (l1 ++ ObjElement e :: l2)
                (mkReport 0 0 0 mask) (mkReport 0 0 0 mask')
                eq_refl eq_refl eq_refl) as (-> & -> & ->).
    reflexivity.
  - intros Hpage. rewrite !loop_app, loop_cons.
    set (st1 := handleMouseReport_loop timestamp reportID l1 (mkReport 0 0 0 mask)).
    destruct (step_axes timestamp reportID st1 e) as (Sx & Sy & Sw).
    assert (Hnot : forall usage,
               matchesReport timestamp reportID e && isAxisChannel usage e = false).
    { intros usage. unfold isAxisChannel. rewrite Hpage. simpl.
      apply andb_false_r. }
    rewrite !Hnot in Sx, Sy, Sw.
    destruct (loop_axes_independent timestamp reportID l2
                (handleMouseReport_step timestamp reportID st1 (ObjElement e)) st1
                Sx Sy Sw) as (-> & -> & ->).
    reflexivity.
  - intros Hpage. rewrite !loop_app, loop_cons.
    apply loop_buttons_independent. rewrite step_buttons.
    unfold isButtonChannel. rewrite Hpage. simpl.
    now rewrite andb_false_r.
Qed.

Section MaskArithmetic.

Lemma inUint32_land_ones (z : Z) : inUint32 z <-> Z.land z (Z.ones 32) = z.
Proof.
  unfold inUint32. rewrite Z.land_ones by lia. split.
  - intros H. apply Z.mod_small. exact H.
  - intros <-. apply Z.mod_pos_bound. lia.
Qed.

Lemma to_uint32_range (z : Z) : inUint32 (Int.to_uint32 z).
Proof. unfold inUint32, Int.to_uint32. apply Z.mod_pos_bound. lia. Qed.

Lemma inUint32_high_bits (z k : Z) :
  inUint32 z -> 32 <= k -> Z.testbit z k = false.
Proof.
  intros Hz Hk.
  replace z with (z mod 2 ^ 32) by (apply Z.mod_small; exact Hz).
  apply Z.mod_pow2_bits_high. lia.
Qed.

(** The bits of [~mask] as a [uint32_t], for the mask of one bit. *)
Lemma clear_mask_bits (index k : Z) :
  0 <= index -> 0 <= k ->
  Z.testbit (Int.to_uint32 (Z.lnot (2 ^ index))) k = (k <? 32) && negb (index =? k).
Proof.
  intros Hi Hk. unfold Int.to_uint32.
  destruct (Z.ltb_spec k 32) as [Hlt | Hge].
  - rewrite Z.mod_pow2_bits_low by lia.
    rewrite Z.lnot_spec by lia. now rewrite Z.pow2_bits_eqb by lia.
  - apply Z.mod_pow2_bits_high. lia.
Qed.

(** [setButtonState] on a defined state and an index inside the mask. *)
Lemma setButtonState_in_range (bs index value : Z) :
  0 <= index < 32 ->
  setButtonState (Some bs) index value =
  Some (if value =? 0
        then Z.land bs (Int.to_uint32 (Z.lnot (2 ^ index)))
        else Z.lor bs (2 ^ index)).
Proof.
  intros Hi. destruct (mask_in_range index Hi) as (m & Hm & Hmask).
  unfold setButtonState. rewrite Hm, Hmask. now destruct (value =? 0).
Qed.

Lemma setButtonState_out_of_range (state : option Z) (index value : Z) :
  ~ 0 <= index < 32 -> setButtonState state index value = None.
Proof.
  intros Hi. unfold setButtonState, Int.shl_checked.
  replace ((0 <=? index) && (index <? 32)) with false; [reflexivity | ].
  symmetry. apply andb_false_iff.
  destruct (Z.leb_spec 0 index); [right; apply Z.ltb_ge; lia | now left].
Qed.

(** A mask that fits 32 bits still fits after [setButtonState]. *)
Lemma setButtonState_keeps_width (bs index value bs' : Z) :
  inUint32 bs ->
  setButtonState (Some bs) index value = Some bs' ->
  inUint32 bs'.
Proof.
  intros Hbs Hset.
  destruct (setButtonState_defined _ _ _ _ Hset) as [Hi _].
  rewrite setButtonState_in_range in Hset by exact Hi.
  injection Hset as <-.
  apply inUint32_land_ones. apply inUint32_land_ones in Hbs.
  destruct (value =? 0).
  - rewrite <- Z.land_assoc. f_equal.
    apply inUint32_land_ones, to_uint32_range.
  - rewrite Z.land_lor_distr_l, Hbs. f_equal.
    apply inUint32_land_ones. unfold inUint32. split.
    + apply Z.pow_nonneg. lia.
    + apply Z.pow_lt_mono_r; lia.
Qed.

(** Writes to two different bits can be swapped. *)
Lemma setButtonState_comm (state : option Z) (i j v w : Z) :
  i <> j ->
  setButtonState (setButtonState state i v) j w =
  setButtonState (setButtonState state j w) i v.
Proof.
  intros Hij.
  destruct state as [bs |]; [ | now rewrite !setButtonState_None].
  destruct (Z_le_dec 0 i) as [Hi0 | Hi0];
    [destruct (Z_lt_dec i 32) as [Hi1 | Hi1] | ].
  2,3: rewrite (setButtonState_out_of_range (Some bs) i v) by lia;
       rewrite (setButtonState_out_of_range _ i v) by lia;
       apply setButtonState_None.
  destruct (Z_le_dec 0 j) as [Hj0 | Hj0];
    [destruct (Z_lt_dec j 32) as [Hj1 | Hj1] | ].
  2,3: rewrite (setButtonState_out_of_range (Some bs) j w) by lia;
       rewrite (setButtonState_out_of_range _ j w) by lia;
       symmetry; apply setButtonState_None.
  rewrite (setButtonState_in_range bs i v), (setButtonState_in_range bs j w) by lia.
  rewrite !setButtonState_in_range by lia. f_equal.
  apply Z.bits_inj'. intros k Hk.
  destruct (v =? 0), (w =? 0);
    rewrite ?Z.lor_spec, ?Z.land_spec, ?Z.lor_spec, ?Z.land_spec,
            ?clear_mask_bits, ?Z.pow2_bits_eqb by lia;
    destruct (Z.eqb_spec i k), (Z.eqb_spec j k), (Z.ltb_spec k 32),
             (Z.testbit bs k); simpl; try reflexivity; lia.
Qed.

End MaskArithmetic.

(** X13. Press and release undo each other.  On a 32-bit mask and an index
    inside it, releasing a button after pressing it gives back the mask in
    which the button was released, and pressing it after releasing it gives
    back the mask in which it was pressed. *)
Theorem setButtonState_press_release_round_trip :
  forall (bs index value : Z),
    inUint32 bs ->
    0 <= index < 32 ->
    value <> 0 ->
    (Z.testbit bs index = false ->
     setButtonState (setButtonState (Some bs) index value) index 0 = Some bs) /\
    (Z.testbit bs index = true ->
     setButtonState (setButtonState (Some bs) index 0) index value = Some bs).
Proof.
  intros bs index value Hbs Hi Hv.
  apply Z.eqb_neq in Hv.
  rewrite !(setButtonState_in_range bs) by exact Hi.
  rewrite !setButtonState_in_range by exact Hi.
  rewrite Hv, Z.eqb_refl.
  split; intros Hbit; f_equal; apply Z.bits_inj'; intros k Hk;
    rewrite ?Z.lor_spec, ?Z.land_spec, ?Z.lor_spec, ?Z.land_spec,
            ?clear_mask_bits, ?Z.pow2_bits_eqb by lia;
    destruct (Z.eqb_spec index k) as [<- | Hne];
    try (rewrite Hbit; destruct (Z.ltb_spec index 32); simpl; [reflexivity | lia]);
    destruct (Z.ltb_spec k 32) as [Hlt | Hge]; simpl;
    rewrite ?orb_false_r, ?andb_true_r, ?andb_false_r; try reflexivity;
    symmetry; apply inUint32_high_bits; assumption.
Qed.

(** X14. Reporting the same state of a button twice is reporting it once,
    for every index and every state, defined or not. *)
Theorem setButtonState_idempotent :
  forall (state : option Z) (index value : Z),
    setButtonState (setButtonState state index value) index value =
    setButtonState state index value.
Proof.
  intros state index value.
  destruct state as [bs |]; [ | now rewrite !setButtonState_None].
  destruct (Z_le_dec 0 index) as [H0 | H0];
    [destruct (Z_lt_dec index 32) as [H1 | H1] | ].
  2,3: rewrite (setButtonState_out_of_range (Some bs)) by lia;
       apply setButtonState_None.
  rewrite (setButtonState_in_range bs) by lia.
  rewrite setButtonState_in_range by lia. f_equal.
  destruct (value =? 0).
  - now rewrite <- Z.land_assoc, Z.land_diag.
  - now rewrite <- Z.lor_assoc, Z.lor_diag.
Qed.

Section ArrayOrder.

Variables timestamp reportID : Z.

Local Abbreviation step := (handleMouseReport_step timestamp reportID).
Local Abbreviation loop := (handleMouseReport_loop timestamp reportID).

(** Two channels clash when both pass the guards and have the same usage
    page and usage but not the same value. *)
Local Abbreviation agree e1 e2 :=
  (matchesReport timestamp reportID e1 = true ->
   matchesReport timestamp reportID e2 = true ->
   getUsagePage e1 = getUsagePage e2 ->
   getUsage e1 = getUsage e2 ->
   getValue e1 = getValue e2).

Lemma hit_agree (usage : Z) (e1 e2 : IOHIDElement) :
  agree e1 e2 ->
  matchesReport timestamp reportID e1 && isAxisChannel usage e1 = true ->
  matchesReport timestamp reportID e2 && isAxisChannel usage e2 = true ->
  getValue e1 = getValue e2.
Proof.
  unfold isAxisChannel. intros Hag H1 H2.
  apply andb_true_iff in H1 as [M1 A1]. apply andb_true_iff in A1 as [P1 U1].
  apply andb_true_iff in H2 as [M2 A2]. apply andb_true_iff in A2 as [P2 U2].
  apply Z.eqb_eq in P1, U1, P2, U2. apply Hag; congruence.
Qed.

(** Iterations on channels that do not clash can be swapped. *)
Lemma step_comm (e1 e2 : IOHIDElement) (st : ReportState) :
  agree e1 e2 ->
  step (step st (ObjElement e1)) (ObjElement e2) =
  step (step st (ObjElement e2)) (ObjElement e1).
Proof.
  intros Hag.
  destruct (step_axes timestamp reportID st e1) as (X1 & Y1 & W1).
  destruct (step_axes timestamp reportID st e2) as (X2 & Y2 & W2).
  destruct (step_axes timestamp reportID (step st (ObjElement e1)) e2)
    as (X12 & Y12 & W12).
  destruct (step_axes timestamp reportID (step st (ObjElement e2)) e1)
    as (X21 & Y21 & W21).
  apply ReportState_eq.
  - rewrite X12, X21, X1, X2.
    destruct (matchesReport timestamp reportID e1 && isAxisChannel kHIDUsage_GD_X e1)
      eqn:H1;
      destruct (matchesReport timestamp reportID e2 && isAxisChannel kHIDUsage_GD_X e2)
        eqn:H2; try reflexivity.
    now rewrite (hit_agree _ _ _ Hag H1 H2).
  - rewrite Y12, Y21, Y1, Y2.
    destruct (matchesReport timestamp reportID e1 && isAxisChannel kHIDUsage_GD_Y e1)
      eqn:H1;
      destruct (matchesReport timestamp reportID e2 && isAxisChannel kHIDUsage_GD_Y e2)
        eqn:H2; try reflexivity.
    now rewrite (hit_agree _ _ _ Hag H1 H2).
  - rewrite W12, W21, W1, W2.
    destruct (matchesReport timestamp reportID e1 && isAxisChannel kHIDUsage_GD_Wheel e1)
      eqn:H1;
      destruct (matchesReport timestamp reportID e2 && isAxisChannel kHIDUsage_GD_Wheel e2)
        eqn:H2; try reflexivity.
    now rewrite (hit_agree _ _ _ Hag H1 H2).
  - rewrite !step_buttons.
    destruct (matchesReport timestamp reportID e1 && isButtonChannel e1 &&
              inButtonRange e1) eqn:T1;
      destruct (matchesReport timestamp reportID e2 && isButtonChannel e2 &&
                inButtonRange e2) eqn:T2; try reflexivity.
    apply andb_true_iff in T1 as [T1 R1]. apply andb_true_iff in T1 as [M1 B1].
    apply andb_true_iff in T2 as [T2 R2]. apply andb_true_iff in T2 as [M2 B2].
    unfold isButtonChannel in B1, B2. apply Z.eqb_eq in B1, B2.
    destruct (button_index e1 R1) as [I1 _].
    destruct (button_index e2 R2) as [I2 _].
    destruct (Z.eq_dec (getUsage e1) (getUsage e2)) as [Heq | Hne].
    + rewrite (Hag M1 M2 ltac:(congruence) Heq), Heq. reflexivity.
    + symmetry. apply setButtonState_comm. rewrite I1, I2. lia.
Qed.

Lemma step_comm_objects (o1 o2 : OSObject) (st : ReportState) :
  (forall e1 e2, o1 = ObjElement e1 -> o2 = ObjElement e2 -> agree e1 e2) ->
  step (step st o1) o2 = step (step st o2) o1.
Proof.
  intros Hag. destruct o1 as [e1 |], o2 as [e2 |]; try reflexivity.
  apply step_comm. now apply Hag.
Qed.

(** A loop whose iterations can be swapped does not see the array order. *)
Lemma loop_Permutation (l l' : list OSObject) :
  Permutation l l' ->
  (forall e1 e2, In (ObjElement e1) l -> In (ObjElement e2) l -> agree e1 e2) ->
  forall st, loop l st = loop l' st.
Proof.
  induction 1 as [| x l l' Hperm IH | x y l | l l' l'' H1 IH1 H2 IH2];
    intros Hag st.
  - reflexivity.
  - rewrite !loop_cons. apply IH.
    intros e1 e2 He1 He2. apply Hag; now right.
  - rewrite !loop_cons. f_equal. apply step_comm_objects.
    intros e1 e2 -> ->. apply Hag; simpl; auto.
  - rewrite IH1 by exact Hag. apply IH2.
    intros e1 e2 He1 He2.
    apply Hag; eapply Permutation_in; try eassumption;
      now apply Permutation_sym.
Qed.

End ArrayOrder.

(** X15. The order of the element array does not matter as long as no two
    channels of the packet write the same thing differently.  When the
    stored mask is defined, every matching button channel inside the usage
    gate indexes a bit of the 32-bit mask, and any two channels that pass the
    guards and share usage page and usage carry the same value, every
    rearrangement of the array gives the same events and stores the same,
    defined, button mask. *)
Theorem handleMouseReport_order_irrelevant :
  forall (timestamp reportID : Z) (elements elements' : list OSObject) (b : Z),
    Permutation elements elements' ->
    (forall e, In (ObjElement e) elements ->
               matchesReport timestamp reportID e = true ->
               isButtonChannel e = true ->
               inButtonRange e = true ->
               getUsage e - kHIDUsage_Button_1 < 32) ->
    (forall e1 e2,
       In (ObjElement e1) elements -> In (ObjElement e2) elements ->
       matchesReport timestamp reportID e1 = true ->
       matchesReport timestamp reportID e2 = true ->
       getUsagePage e1 = getUsagePage e2 ->
       getUsage e1 = getUsage e2 ->
       getValue e1 = getValue e2) ->
    snd (handleMouseReport (mkIVars elements (Some b)) timestamp reportID) =
      snd (handleMouseReport (mkIVars elements' (Some b)) timestamp reportID) /\
    exists mask,
      buttonState (fst (handleMouseReport (mkIVars elements (Some b))
                                          timestamp reportID)) = Some mask /\
      buttonState (fst (handleMouseReport (mkIVars elements' (Some b))
                                          timestamp reportID)) = Some mask.
Proof.
  intros timestamp reportID elements elements' b Hperm Hsmall Hag.
  unfold handleMouseReport. cbn [mouseElements buttonState fst snd].
  rewrite <- (loop_Permutation timestamp reportID elements elements' Hperm Hag).
  split; [reflexivity | ].
  destruct (loop_buttons_defined timestamp reportID elements
              (mkReport 0 0 0 (Some b)) b eq_refl) as (mask & Hmask).
  - intros e He Ht.
    apply andb_true_iff in Ht as [Ht Hr].
    apply andb_true_iff in Ht as [Hm Hbt].
    now apply Hsmall.
  - exists mask. split; exact Hmask.
Qed.

Section ExactScaling.

Lemma to_int32_id (z : Z) : inInt32 z -> Int.to_int32 z = z.
Proof.
  unfold inInt32, Int.to_int32. intros Hz.
  pose proof (Z.mod_pos_bound z (2 ^ 32) ltac:(lia)) as Hm.
  pose proof (Z.div_mod z (2 ^ 32) ltac:(lia)) as Hd.
  destruct (Z.ltb_spec (z mod 2 ^ 32) (2 ^ 31)); lia.
Qed.

Lemma to_int64_id (z : Z) : - 2 ^ 63 <= z < 2 ^ 63 -> Int.to_int64 z = z.
Proof.
  unfold Int.to_int64. intros Hz.
  pose proof (Z.mod_pos_bound z (2 ^ 64) ltac:(lia)) as Hm.
  pose proof (Z.div_mod z (2 ^ 64) ltac:(lia)) as Hd.
  destruct (Z.ltb_spec (z mod 2 ^ 64) (2 ^ 63)); lia.
Qed.

(** A 17-bit sample shifted by 15 does not wrap. *)
Lemma shl_15_exact (value : Z) :
  - 2 ^ 16 <= value < 2 ^ 16 -> Int.shl value 15 = value * 2 ^ 15.
Proof.
  intros Hv. unfold Int.shl. rewrite Z.shiftl_mul_pow2 by lia.
  apply to_int32_id. unfold inInt32. lia.
Qed.

(** The wheel formula without wrap-around. *)
Lemma wheel_exact (value : Z) :
  - 10922 <= value <= 10922 ->
  IOFixedMultiply (Int.shl value 16) (Int.shl (-3) 16) = - 3 * value * 2 ^ 16.
Proof.
  intros Hv.
  assert (H3 : Int.shl (-3) 16 = - 196608) by reflexivity.
  assert (Hs : Int.shl value 16 = value * 2 ^ 16).
  { unfold Int.shl. rewrite Z.shiftl_mul_pow2 by lia.
    apply to_int32_id. unfold inInt32. lia. }
  rewrite H3, Hs. unfold IOFixedMultiply.
  rewrite (to_int64_id (value * 2 ^ 16)) by lia.
  rewrite (to_int64_id (- 196608)) by lia.
  rewrite to_int64_id by lia.
  rewrite Z.shiftr_div_pow2 by lia.
  replace (value * 2 ^ 16 * - 196608) with (- 196608 * value * 2 ^ 16) by lia.
  rewrite Z.div_mul by lia.
  rewrite to_int32_id by (unfold inInt32; lia). lia.
Qed.

End ExactScaling.

(** X16. Without wrap-around the axis scaling is a multiplication by 2^15,
    half a unit of 16.16 fixed point per count: when the last channel of the
    X (or Y) axis that matches the packet carries a sample of at most 17
    bits, the pointer event carries exactly sample * 32768 as deltaX (or
    deltaY), with the sign of the sample. *)
Theorem handleMouseReport_axis_scaling_exact :
  forall (iv : IVars) (timestamp reportID : Z)
         (l1 l2 : list OSObject) (e : IOHIDElement),
    mouseElements iv = l1 ++ ObjElement e :: l2 ->
    matchesReport timestamp reportID e = true ->
    getUsagePage e = kHIDPage_GenericDesktop ->
    (forall e', In (ObjElement e') l2 ->
                matchesReport timestamp reportID e' = true ->
                getUsagePage e' = kHIDPage_GenericDesktop ->
                getUsage e' <> getUsage e) ->
    - 2 ^ 16 <= getValue e < 2 ^ 16 ->
    exists dx dy,
      pointerDeltas (snd (handleMouseReport iv timestamp reportID)) = Some (dx, dy) /\
      (getUsage e = kHIDUsage_GD_X -> dx = getValue e * 32768) /\
      (getUsage e = kHIDUsage_GD_Y -> dy = getValue e * 32768).
Proof.
  intros iv timestamp reportID l1 l2 e Hset Hm Hpage Hlast Hv.
  eexists _, _. split; [reflexivity | ].
  rewrite Hset.
  destruct (loop_last_axis timestamp reportID l1 l2 e
                           (mkReport 0 0 0 (buttonState iv))) as (Hx & Hy & _).
  assert (Hlater : forall usage, getUsage e = usage ->
            forall e', In (ObjElement e') l2 ->
              matchesReport timestamp reportID e' && isAxisChannel usage e' = false).
  { intros usage Hus e' He'.
    destruct (matchesReport timestamp reportID e') eqn:Hm'; [ | reflexivity].
    unfold isAxisChannel. simpl.
    destruct (Z.eqb_spec (getUsagePage e') kHIDPage_GenericDesktop) as [Hp | Hp];
      [ | reflexivity].
    simpl. apply Z.eqb_neq. rewrite <- Hus. now apply Hlast. }
  assert (Hhit : forall usage, getUsage e = usage ->
            matchesReport timestamp reportID e && isAxisChannel usage e = true).
  { intros usage Hus. unfold isAxisChannel.
    rewrite Hm, Hpage, Hus, !Z.eqb_refl. reflexivity. }
  split; intros Hus.
  - rewrite Hx by (try apply Hhit; try apply Hlater; exact Hus).
    now rewrite shl_15_exact.
  - rewrite Hy by (try apply Hhit; try apply Hlater; exact Hus).
    now rewrite shl_15_exact.
Qed.

(** X17. Without wrap-around the wheel scaling is a multiplication by -3 in
    16.16 fixed point: when the last wheel channel that matches the packet
    carries a sample between -10922 and 10922, the scroll event carries
    exactly -3 * sample * 65536, so the scroll runs against the wheel at
    three times its count.  [IOFixedMultiply] is the platform's helper, taken
    as the 16.16 product. *)
Theorem handleMouseReport_wheel_scaling_exact :
  forall (iv : IVars) (timestamp reportID : Z)
         (l1 l2 : list OSObject) (e : IOHIDElement),
    mouseElements iv = l1 ++ ObjElement e :: l2 ->
    matchesReport timestamp reportID e = true ->
    getUsagePage e = kHIDPage_GenericDesktop ->
    getUsage e = kHIDUsage_GD_Wheel ->
    (forall e', In (ObjElement e') l2 ->
                matchesReport timestamp reportID e' = true ->
                getUsagePage e' = kHIDPage_GenericDesktop ->
                getUsage e' <> kHIDUsage_GD_Wheel) ->
    - 10922 <= getValue e <= 10922 ->
    scrollDelta (snd (handleMouseReport iv timestamp reportID)) =
      Some (- 3 * getValue e * 65536).
Proof.
  intros iv timestamp reportID l1 l2 e Hset Hm Hpage Hus Hlast Hv.
  unfold handleMouseReport, scrollDelta. cbn [snd]. f_equal.
  rewrite Hset.
  destruct (loop_last_axis timestamp reportID l1 l2 e
                           (mkReport 0 0 0 (buttonState iv))) as (_ & _ & Hw).
  rewrite Hw.
  - now rewrite wheel_exact.
  - unfold isAxisChannel. rewrite Hm, Hpage, Hus, !Z.eqb_refl. reflexivity.
  - intros e' He'.
    destruct (matchesReport timestamp reportID e') eqn:Hm'; [ | reflexivity].
    unfold isAxisChannel. simpl.
    destruct (Z.eqb_spec (getUsagePage e') kHIDPage_GenericDesktop) as [Hp | Hp];
      [ | reflexivity].
    simpl. apply Z.eqb_neq. now apply Hlast.
Qed.

(** X18. Within one packet the last button channel of an index decides its
    bit.  When the stored mask is defined, every matching button channel
    inside the usage gate indexes a bit of the mask, and [e] is the last
    matching channel of its usage, the mask stored after the packet has bit
    [usage - kHIDUsage_Button_1] set exactly when the value of [e] is not
    zero. *)
Theorem handleMouseReport_last_button_channel_wins :
  forall (iv : IVars) (timestamp reportID : Z)
         (l1 l2 : list OSObject) (e : IOHIDElement) (b : Z),
    mouseElements iv = l1 ++ ObjElement e :: l2 ->
    buttonState iv = Some b ->
    (forall e', In (ObjElement e') (mouseElements iv) ->
                matchesReport timestamp reportID e' = true ->
                isButtonChannel e' = true ->
                inButtonRange e' = true ->
                getUsage e' - kHIDUsage_Button_1 < 32) ->
    matchesReport timestamp reportID e = true ->
    isButtonChannel e = true ->
    inButtonRange e = true ->
    inInt32 (getValue e) ->
    (forall e', In (ObjElement e') l2 ->
                matchesReport timestamp reportID e' = true ->
                isButtonChannel e' = true ->
                getUsage e' <> getUsage e) ->
    exists mask,
      buttonState (fst (handleMouseReport iv timestamp reportID)) = Some mask /\
      Z.testbit mask (getUsage e - kHIDUsage_Button_1) = negb (getValue e =? 0).
Proof.
  intros iv timestamp reportID l1 l2 e b Hset Hb Hsmall Hm Hbt Hr Hval Hlast.
  unfold handleMouseReport. cbn [fst buttonState].
  rewrite Hset, loop_app, loop_cons. rewrite Hset in Hsmall.
  set (st0 := mkReport 0 0 0 (buttonState iv)).
  assert (Htouch : forall l e',
             (forall x, In x l -> In x (l1 ++ ObjElement e :: l2)) ->
             In (ObjElement e') l ->
             matchesReport timestamp reportID e' && isButtonChannel e' &&
             inButtonRange e' = true ->
             getUsage e' - kHIDUsage_Button_1 < 32).
  { intros l e' Hsub He' Ht.
    apply andb_true_iff in Ht as [Ht R]. apply andb_true_iff in Ht as [M B].
    apply Hsmall; auto. }
  destruct (loop_buttons_defined timestamp reportID l1 st0 b Hb) as (b1 & Hb1).
  { intros e'. apply Htouch. intros x Hx. apply in_or_app. now left. }
  set (st1 := handleMouseReport_loop timestamp reportID l1 st0) in *.
  destruct (button_index e Hr) as [Hidx Hbound].
  assert (Hin : 0 <= getUsage e - kHIDUsage_Button_1 < 32).
  { split; [lia | ]. apply Hsmall; auto. apply in_or_app. right. now left. }
  destruct (setButtonState_bits b1 _ (Int.to_uint32 (getValue e)) Hin)
    as (b2 & Hset2 & Hbits).
  assert (Hb2 : buttons (handleMouseReport_step timestamp reportID st1 (ObjElement e))
                = Some b2).
  { rewrite step_buttons, Hm, Hbt, Hr, Hb1, Hidx. exact Hset2. }
  destruct (loop_buttons_defined timestamp reportID l2 _ b2 Hb2) as (b3 & Hb3).
  { intros e'. apply Htouch. intros x Hx. apply in_or_app. right. now right. }
  exists b3. split; [exact Hb3 | ].
  rewrite (loop_buttons_frame timestamp reportID l2 _ b2 b3 _ Hb2 Hb3 Hin).
  - rewrite (Hbits _ Hin), Z.eqb_refl. f_equal.
    destruct (Z.eqb_spec (getValue e) 0) as [-> | Hne]; [reflexivity | ].
    apply Z.eqb_neq. unfold Int.to_uint32, inInt32 in *.
    intros H0. apply Z.mod_divide in H0; [ | lia].
    destruct H0 as [q Hq]. lia.
  - intros e' He' Ht.
    apply andb_true_iff in Ht as [Ht R]. apply andb_true_iff in Ht as [M B].
    specialize (Hlast e' He' M B). lia.
Qed.

Section PacketSequence.

Lemma loop_keeps_width (timestamp reportID : Z) (l : list OSObject) :
  forall (st : ReportState) (b b' : Z),
    buttons st = Some b -> inUint32 b ->
    buttons (handleMouseReport_loop timestamp reportID l st) = Some b' ->
    inUint32 b'.
Proof.
  induction l as [| o l IH]; intros st b b' Hb Hw Hb'.
  - simpl in Hb'. congruence.
  - rewrite loop_cons in Hb'.
    destruct (buttons (handleMouseReport_step timestamp reportID st o))
      as [b1 |] eqn:Hb1.
    2:{ rewrite (loop_buttons_None timestamp reportID l _ Hb1) in Hb'.
        discriminate Hb'. }
    apply (IH _ b1 b' Hb1); [ | exact Hb'].
    rewrite step_buttons in Hb1. destruct o as [e |]; [ | congruence].
    destruct (_ && _); [ | congruence].
    rewrite Hb in Hb1. eapply setButtonState_keeps_width; eassumption.
Qed.

Lemma handlePackets_fold (packets : list Packet) :
  forall (iv : IVars) (events : list HostEvent),
    fold_left (fun acc p => let r := handlePacket (fst acc) p in
                            (fst r, snd acc ++ snd r))
              packets (iv, events) =
    (fst (handlePackets iv packets), events ++ snd (handlePackets iv packets)).
Proof.
  unfold handlePackets.
  induction packets as [| p packets IH]; intros iv events.
  - simpl. now rewrite app_nil_r.
  - cbn [fold_left fst snd]. rewrite IH.
    rewrite (IH (fst (handlePacket iv p)) ([] ++ snd (handlePacket iv p))).
    cbn [fst snd app]. now rewrite app_assoc.
Qed.

Lemma handlePackets_cons (iv : IVars) (p : Packet) (packets : list Packet) :
  handlePackets iv (p :: packets) =
  (fst (handlePackets (fst (handlePacket iv p)) packets),
   snd (handlePacket iv p) ++ snd (handlePackets (fst (handlePacket iv p)) packets)).
Proof.
  unfold handlePackets at 1. cbn [fold_left fst snd app].
  apply handlePackets_fold.
Qed.

Lemma handlePackets_snoc (iv : IVars) (packets : list Packet) (p : Packet) :
  handlePackets iv (packets ++ [p]) =
  (fst (handlePacket (fst (handlePackets iv packets)) p),
   snd (handlePackets iv packets) ++
   snd (handlePacket (fst (handlePackets iv packets)) p)).
Proof.
  revert iv. induction packets as [| q packets IH]; intros iv.
  - cbn [app]. rewrite handlePackets_cons.
    unfold handlePackets. cbn [fold_left fst snd app]. now rewrite app_nil_r.
  - cbn [app]. rewrite !handlePackets_cons, IH. cbn [fst snd].
    now rewrite app_assoc.
Qed.

End PacketSequence.

(** X19. The stored button state stays a 32-bit mask: starting from a mask
    below 2^32 (the zero of [init] is one), whatever packets arrive, the
    state after them is a mask below 2^32 whenever it is defined. *)
Theorem buttonState_stays_32_bit :
  forall (iv : IVars) (packets : list Packet) (b b' : Z),
    buttonState iv = Some b ->
    inUint32 b ->
    buttonState (fst (handlePackets iv packets)) = Some b' ->
    inUint32 b'.
Proof.
  intros iv packets. revert iv.
  induction packets as [| p packets IH]; intros iv b b' Hb Hw Hb'.
  - cbn in Hb'. congruence.
  - rewrite handlePackets_cons in Hb'. cbn [fst] in Hb'.
    destruct (buttonState (fst (handlePacket iv p))) as [b1 |] eqn:Hb1.
    + apply (IH _ b1 b' Hb1); [ | exact Hb'].
      unfold handlePacket, handleReport, handleMouseReport, refreshElements in Hb1.
      cbn [fst buttonState mouseElements] in Hb1.
      eapply loop_keeps_width; [ | exact Hw | exact Hb1]. exact Hb.
    + exfalso. clear IH Hb Hw.
      revert Hb1 Hb'. generalize (fst (handlePacket iv p)) as iv1.
      induction packets as [| q packets IH]; intros iv1 Hb1 Hb'.
      * cbn in Hb'. congruence.
      * rewrite handlePackets_cons in Hb'. cbn [fst] in Hb'.
        apply (IH (fst (handlePacket iv1 q))); [ | exact Hb'].
        unfold handlePacket, handleReport, handleMouseReport, refreshElements.
        cbn [fst buttonState mouseElements].
        apply loop_buttons_None. exact Hb1.
Qed.

(** X20. Packets do not add up.  A sequence of packets dispatches the events
    of its packets one after the other, two per packet, and the deltas
    dispatched for a packet are those the packet gives on a freshly
    initialised driver: nothing of the motion of earlier packets is carried
    over. *)
Theorem handlePackets_no_accumulation :
  forall (iv : IVars) (packets : list Packet) (p : Packet),
    let before := handlePackets iv packets in
    let last := handlePacket (fst before) p in
    snd (handlePackets iv (packets ++ [p])) = snd before ++ snd last /\
    length (snd (handlePackets iv (packets ++ [p]))) =
      (2 * length (packets ++ [p]))%nat /\
    pointerDeltas (snd last) = pointerDeltas (snd (handlePacket freshIVars p)) /\
    scrollDelta (snd last) = scrollDelta (snd (handlePacket freshIVars p)).
Proof.
  intros iv packets p before last.
  split; [unfold before, last; now rewrite handlePackets_snoc | ].
  split.
  - generalize (packets ++ [p]) as ps. clear. intros ps. revert iv.
    induction ps as [| q ps IH]; intros iv; [reflexivity | ].
    rewrite handlePackets_cons. cbn [snd]. rewrite length_app, IH.
    cbn [length]. unfold handlePacket, handleReport, handleMouseReport.
    cbn [snd length]. lia.
  - unfold last, handlePacket, handleReport, handleMouseReport, refreshElements,
      pointerDeltas, scrollDelta.
    cbn [fst snd mouseElements buttonState].
    destruct (loop_axes_independent (packetTimestamp p) (packetReportID p)
                (packetElements p)
                (mkReport 0 0 0 (buttonState (fst before)))
                (mkReport 0 0 0 (buttonState freshIVars))
                eq_refl eq_refl eq_refl) as (-> & -> & ->).
    split; reflexivity.
Qed.

(** X21. From [init] through a successful [Start_Impl]: the ivars then hold
    exactly the accepted elements of the array the host handed over, in
    device order and at least one of them, and a button mask of zero. *)
Theorem init_then_Start_Impl :
  forall (super_init ivars_allocated array_allocated : bool)
         (host : HostAnswers) (iv : IVars),
    init super_init ivars_allocated array_allocated = Some iv ->
    fst (fst (Start_Impl host iv)) = kIOReturnSuccess ->
    exists deviceElements,
      getElements host = Some deviceElements /\
      snd (fst (Start_Impl host iv)) =
        mkIVars (map ObjElement (filter isMouseElement (elementsOf deviceElements)))
                (Some 0) /\
      filter isMouseElement (elementsOf deviceElements) <> [].
Proof.
  intros super_init ivars_allocated array_allocated host iv Hinit.
  assert (Hiv : iv = mkIVars [] (Some 0)).
  { unfold init in Hinit.
    destruct super_init, ivars_allocated, array_allocated;
      simpl in Hinit; congruence. }
  subst iv. clear Hinit.
  pose proof kIOReturnInvalid_is_error as Hinv.
  pose proof kIOReturnError_is_error as Herr.
  start_exits host (mkIVars [] (Some 0)); intros Hret; try contradiction.
  exists deviceElements. split; [reflexivity | ].
  unfold parseMouseElements in Hparse. rewrite parseMouseElements_fold in Hparse.
  cbn [fst snd mouseElements buttonState app orb] in Hparse.
  injection Hparse as <- Hfound. split; [reflexivity | ].
  intros Hnone.
  induction (elementsOf deviceElements) as [| e l IH]; [discriminate Hfound | ].
  simpl in Hfound, Hnone.
  destruct (isMouseElement e); [discriminate Hnone | ].
  now apply IH.
Qed.

(** X22. The first failure decides the code [Start_Impl] returns: a failing
    host call hands on its own code, a provider that is not a HID interface
    gives [kIOReturnError], a missing element array gives [kIOReturnInvalid];
    later steps are not consulted. *)
Theorem Start_Impl_first_failure_decides :
  forall (host : HostAnswers) (iv : IVars),
    let ret := fst (fst (Start_Impl host iv)) in
    (superStart host <> kIOReturnSuccess -> ret = superStart host) /\
    (superStart host = kIOReturnSuccess ->
     (createActionReportAvailable host <> kIOReturnSuccess ->
      ret = createActionReportAvailable host) /\
     (createActionReportAvailable host = kIOReturnSuccess ->
      (providerIsInterface host = false -> ret = kIOReturnError) /\
      (providerIsInterface host = true ->
       (interfaceOpen host <> kIOReturnSuccess -> ret = interfaceOpen host) /\
       (interfaceOpen host = kIOReturnSuccess ->
        (getElements host = None -> ret = kIOReturnInvalid) /\
        (forall deviceElements,
           getElements host = Some deviceElements ->
           snd (parseMouseElements iv deviceElements) = true ->
           registerService host <> kIOReturnSuccess ->
           ret = registerService host))))).
Proof.
  intros host iv.
  start_exits host iv; repeat split; intros; try congruence; try reflexivity.
  all: match goal with
       | H : Some _ = Some _ |- _ => injection H as <-
       end.
  all: match goal with
       | H : parseMouseElements _ _ = _, H' : snd (parseMouseElements _ _) = _ |- _ =>
         rewrite H in H'; simpl in H'; congruence
       end.
Qed.

(* ------------------------------------------------------------------ *)
(** ** The further properties on concrete devices and packets *)

(** Classifying [mouseDevice] on a fresh driver raises the flag and fills
    the array. *)
Lemma parseMouseElements_growth_mouse :
  snd (parseMouseElements freshIVars mouseDevice) = true /\
  (length (mouseElements freshIVars) <
   length (mouseElements (fst (parseMouseElements freshIVars mouseDevice))))%nat.
Proof.
  split; [reflexivity | ].
  apply (proj1 (proj2 (proj2 (parseMouseElements_growth freshIVars mouseDevice)))).
  reflexivity.
Defined.

(** Attaching to [mouseDevice] succeeds when the host answers every call
    with success. *)
Lemma attach_succeeds_on_mouse :
  fst (fst (Start_Impl (hostAllOk mouseDevice) freshIVars)) = kIOReturnSuccess.
Proof.
  apply (proj2 (Start_Impl_success_iff (hostAllOk mouseDevice) freshIVars)).
  split; [reflexivity | split; [reflexivity | split; [reflexivity | ]]].
  split; [reflexivity | split; [ | reflexivity]].
  exists mouseDevice. split; reflexivity.
Defined.

(** The failed attach to [keyboardDevice] leaves the element array of the
    fresh driver empty. *)
Lemma failed_attach_leaves_ivars :
  mouseElements (snd (fst (Start_Impl (hostAllOk keyboardDevice) freshIVars))) =
  mouseElements freshIVars.
Proof.
  apply (proj2 (proj2 (Start_Impl_ivars (hostAllOk keyboardDevice) freshIVars))).
  vm_compute. intuition discriminate.
Defined.

(** Three cancels pending: the first two runs of the block only count, the
    third stops the driver. *)
Lemma third_cancel_stops :
  Stop_finalize_times 2 3 = (1, []) /\
  Stop_finalize_times 3 3 =
    (0, [StopSuperStop; StopReleaseThis; StopReleaseProvider]).
Proof.
  apply (Stop_finalize_last_cancel_stops 3).
  - lia.
  - reflexivity.
Defined.

(** A pressed first button beside an X sample: it has no part in the
    deltas, and the X sample has no part in the mask. *)
Lemma button_beside_axis :
  let x := ObjElement (xChannel 1 10 4) in
  let b := buttonChannel 1 1 10 1 in
  let deltas iv := (pointerDeltas (snd (handleMouseReport iv 10 1)),
                    scrollDelta (snd (handleMouseReport iv 10 1))) in
  deltas (mkIVars [x; ObjElement b] (Some 0)) = deltas (mkIVars [x] (Some 0)) /\
  buttonState (fst (handleMouseReport (mkIVars [ObjElement b; x] (Some 0)) 10 1)) =
    buttonState (fst (handleMouseReport (mkIVars [ObjElement b] (Some 0)) 10 1)).
Proof.
  intros x b deltas. split.
  - apply (proj1 (proj2 (handleMouseReport_axes_and_buttons_independent
                           10 1 [ObjElement (xChannel 1 10 4)] []
                           (buttonChannel 1 1 10 1) (Some 0) (Some 0)))).
    reflexivity.
  - apply (proj2 (proj2 (handleMouseReport_axes_and_buttons_independent
                           10 1 [ObjElement (buttonChannel 1 1 10 1)] []
                           (xChannel 1 10 4) (Some 0) (Some 0)))).
    reflexivity.
Defined.

(** Pressing and releasing the second button on the mask 5. *)
Lemma press_release_on_mask_5 :
  setButtonState (setButtonState (Some 5) 1 1) 1 0 = Some 5.
Proof.
  apply (proj1 (setButtonState_press_release_round_trip 5 1 1
                  ltac:(unfold inUint32; lia) ltac:(lia) ltac:(lia))).
  reflexivity.
Defined.

(** An X sample and a pressed first button in either order: the same events
    and the mask 1. *)
Lemma swapped_array_same_events :
  let x := ObjElement (xChannel 1 10 4) in
  let b := ObjElement (buttonChannel 1 1 10 1) in
  snd (handleMouseReport (mkIVars [x; b] (Some 0)) 10 1) =
    snd (handleMouseReport (mkIVars [b; x] (Some 0)) 10 1) /\
  exists mask,
    buttonState (fst (handleMouseReport (mkIVars [x; b] (Some 0)) 10 1)) = Some mask /\
    buttonState (fst (handleMouseReport (mkIVars [b; x] (Some 0)) 10 1)) = Some mask.
Proof.
  apply (handleMouseReport_order_irrelevant 10 1
           [ObjElement (xChannel 1 10 4); ObjElement (buttonChannel 1 1 10 1)]
           [ObjElement (buttonChannel 1 1 10 1); ObjElement (xChannel 1 10 4)]
           0).
  - apply perm_swap.
  - intros e [H | [H | []]] _ Hb _; injection H as <-.
    + discriminate Hb.
    + vm_compute. reflexivity.
  - intros e1 e2 H1 H2 _ _ Hp _.
    destruct H1 as [H1 | [H1 | []]]; destruct H2 as [H2 | [H2 | []]];
      injection H1 as <-; injection H2 as <-;
      try reflexivity; vm_compute in Hp; discriminate Hp.
Defined.

(** An X sample of -3 is dispatched as -98304. *)
Lemma negative_x_sample_exact :
  exists dx dy,
    pointerDeltas (snd (handleMouseReport
                          (mkIVars [ObjElement (xChannel 1 10 (-3))] (Some 0)) 10 1)) =
    Some (dx, dy) /\
    dx = -98304.
Proof.
  destruct (handleMouseReport_axis_scaling_exact
              (mkIVars [ObjElement (xChannel 1 10 (-3))] (Some 0)) 10 1
              [] [] (xChannel 1 10 (-3)))
    as (dx & dy & Hev & Hx & _).
  - reflexivity.
  - reflexivity.
  - reflexivity.
  - intros e' [].
  - simpl. lia.
  - exists dx, dy. split; [exact Hev | ]. rewrite (Hx eq_refl). reflexivity.
Defined.

(** A wheel sample of 2 is dispatched as -6.0 in 16.16. *)
Lemma wheel_sample_exact :
  scrollDelta (snd (handleMouseReport
                      (mkIVars [ObjElement (wheelChannel 1 10 2)] (Some 0)) 10 1)) =
  Some (-393216).
Proof.
  apply (handleMouseReport_wheel_scaling_exact
           (mkIVars [ObjElement (wheelChannel 1 10 2)] (Some 0)) 10 1
           [] [] (wheelChannel 1 10 2)).
  - reflexivity.
  - reflexivity.
  - reflexivity.
  - reflexivity.
  - intros e' [].
  - simpl. lia.
Defined.

(** The second button pressed and released within one packet: released. *)
Lemma press_then_release_in_one_packet :
  exists mask,
    buttonState
      (fst (handleMouseReport
              (mkIVars [ObjElement (buttonChannel 2 1 10 1);
                        ObjElement (buttonChannel 2 1 10 0)] (Some 0))
              10 1)) = Some mask /\
    Z.testbit mask 1 = false.
Proof.
  apply (handleMouseReport_last_button_channel_wins
           (mkIVars [ObjElement (buttonChannel 2 1 10 1);
                     ObjElement (buttonChannel 2 1 10 0)] (Some 0))
           10 1
           [ObjElement (buttonChannel 2 1 10 1)] [] (buttonChannel 2 1 10 0) 0).
  - reflexivity.
  - reflexivity.
  - intros e' [H | [H | []]] _ _ _; injection H as <-; vm_compute; reflexivity.
  - reflexivity.
  - reflexivity.
  - reflexivity.
  - unfold inInt32. simpl. lia.
  - intros e' [].
Defined.

(** A packet that presses the first and the third button of three leaves the
    mask 5, a 32-bit mask. *)
Lemma three_button_packet_mask :
  buttonState
    (fst (handlePackets freshIVars
            [mkPacket (threeButtonPacket 10 1 1 0 1 0 1) 10 1])) = Some 5 /\
  inUint32 5.
Proof.
  split; [reflexivity | ].
  apply (buttonState_stays_32_bit freshIVars
           [mkPacket (threeButtonPacket 10 1 1 0 1 0 1) 10 1] 0 5).
  - reflexivity.
  - unfold inUint32. lia.
  - reflexivity.
Defined.

(** After [init] and the attach to [mouseDevice] the array holds the five
    mouse channels of the device. *)
Lemma init_then_attach_to_mouse :
  exists deviceElements,
    getElements (hostAllOk mouseDevice) = Some deviceElements /\
    snd (fst (Start_Impl (hostAllOk mouseDevice) freshIVars)) =
      mkIVars (map ObjElement (filter isMouseElement (elementsOf deviceElements)))
              (Some 0) /\
    filter isMouseElement (elementsOf deviceElements) <> [].
Proof.
  apply (init_then_Start_Impl true true true (hostAllOk mouseDevice) freshIVars).
  - reflexivity.
  - reflexivity.
Defined.

(** A host whose [Open] fails with a code of its own: the attach returns
    that code. *)
Lemma open_failure_is_returned :
  fst (fst (Start_Impl (mkHost kIOReturnSuccess kIOReturnSuccess true 77
                               (Some mouseDevice) kIOReturnSuccess)
                       freshIVars)) = 77.
Proof.
  pose proof (Start_Impl_first_failure_decides
                (mkHost kIOReturnSuccess kIOReturnSuccess true 77
                        (Some mouseDevice) kIOReturnSuccess)
                freshIVars) as H.
  cbv zeta in H. destruct H as (_ & H). destruct (H eq_refl) as (_ & H2).
  destruct (H2 eq_refl) as (_ & H3). destruct (H3 eq_refl) as (H4 & _).
  apply H4. simpl. discriminate.
Defined.
